(** * apm-aggregation: telemetry of the aggregators, merge and harvest

    A shallow embedding of [aggregators/internal/telemetry/metrics.go] and
    the properties of its instruments, its sampling callback and its
    clean-up.  The calls the package makes to its collaborators (the
    OpenTelemetry meter, the observer, the registration and the pebble
    statistics provider) are the events of a small free monad; a handler
    plays the collaborators and a run records the trace of calls.

    The merge of metric values and the harvest of closed windows, which
    the specification describes and the sources do not contain, are
    modelled from the specification, each definition saying so. *)

From Stdlib Require Import ZArith String List Lia.
From stdpp Require Import base tactics option list strings vector gmap.

Local Open Scope string_scope.
Local Open Scope Z_scope.
Local Open Scope list_scope.

(** ** Go values *)

Module Go.

(** A Go [error]: a plain error value with its message, as [errors.New]
    makes, or the [*fmt.wrapError] that [fmt.Errorf] builds for [%w]. *)
Inductive error : Type :=
| errorString (s : string)
| wrapError (msg : string) (err : error).

Definition Error (e : error) : string :=
  match e with
  | errorString s => s
  | wrapError msg _ => msg
  end.

Definition Unwrap (e : error) : option error :=
  match e with
  | errorString _ => None
  | wrapError _ err => Some err
  end.

(** [fmt.Errorf(prefix + "%w", err)]: the message is the prefix followed
    by the message of [err], and [Unwrap] gives [err] back. *)
Definition Errorf (prefix : string) (err : error) : error :=
  wrapError (prefix +:+ Error err) err.

#[global] Instance error_eq_dec : EqDecision error.
Proof. solve_decision. Defined.

(** [int64(x)] for an [x] of type [uint64]: the same 64 bits read as a
    signed number. *)
Definition int64_of_uint64 (x : Z) : Z :=
  (x + 2 ^ 63) mod 2 ^ 64 - 2 ^ 63.

(** [int64(x)] for an [x] of type [int] or [int32]: the value is kept. *)
Definition int64_of_int (x : Z) : Z := x.
Definition int64_of_int32 (x : Z) : Z := x.

(** A Go call returning [(T, error)] answers with a value or with an
    error; [value] and [err] are the two results the caller assigns, the
    one that is not given being nil. *)
Definition value {T} (r : T + error) : option T :=
  match r with inl v => Some v | inr _ => None end.
Definition err {T} (r : T + error) : option error :=
  match r with inl _ => None | inr e => Some e end.

End Go.

(** ** The free monad of collaborator calls *)

Section Prog.
Context {E : Type → Type}.

(** A program either returns or makes a call of [E] and goes on with the
    collaborator's answer. *)
Inductive Prog (R : Type) : Type :=
| Ret (r : R)
| Do {X : Type} (c : E X) (k : X → Prog R).

#[global] Arguments Ret {R} r.
#[global] Arguments Do {R X} c k.

Fixpoint bind {A B} (p : Prog A) (f : A → Prog B) : Prog B :=
  match p with
  | Ret a => f a
  | Do c k => Do c (λ x, bind (k x) f)
  end.

(** One call of a run, with the answer it got. *)
Inductive Event : Type :=
| Ev {X : Type} (c : E X) (x : X).

(** A handler plays the collaborators over a state of its own. *)
Definition Handler (S : Type) : Type := ∀ X, E X → S → X * S.

Fixpoint run {S R} (h : Handler S) (p : Prog R) (s : S)
  : R * S * list Event :=
  match p with
  | Ret r => (r, s, [])
  | Do c k =>
      let '(x, s1) := h _ c s in
      let '(r, s2, t) := run h (k x) s1 in
      (r, s2, Ev c x :: t)
  end.

Definition result {S R} (h : Handler S) (p : Prog R) (s : S) : R :=
  (run h p s).1.1.
Definition final {S R} (h : Handler S) (p : Prog R) (s : S) : S :=
  (run h p s).1.2.
Definition trace {S R} (h : Handler S) (p : Prog R) (s : S) : list Event :=
  (run h p s).2.

(** [wp p Φ]: whatever the collaborators answer, the calls [p] makes and
    the value it returns satisfy [Φ]. *)
Fixpoint wp {R} (p : Prog R) (Φ : list Event → R → Prop) : Prop :=
  match p with
  | Ret r => Φ [] r
  | Do c k => ∀ x, wp (k x) (λ t r, Φ (Ev c x :: t) r)
  end.

End Prog.

#[global] Arguments Prog E R : clear implicits.
#[global] Arguments Event E : clear implicits.
#[global] Arguments Handler E S : clear implicits.

(** [x ⇐ c; k]: call [c], name its answer [x], go on with [k]. *)
Notation "x ⇐ c ; k" := (Do c (λ x, k))
  (at level 20, c at level 100, k at level 200, only parsing).

(** ** pebble: the statistics snapshot *)

Module pebble.

(** [pebble.LevelMetrics], the fields the telemetry reads. *)
Record LevelMetrics : Type := mkLevelMetrics {
  Sublevels : Z;        (* int32 *)
  NumFiles : Z;         (* int64 *)
  BytesCompacted : Z;   (* uint64 *)
  BytesFlushed : Z;     (* uint64 *)
  BytesIngested : Z;    (* uint64 *)
  BytesRead : Z;        (* uint64 *)
}.

Definition numLevels : nat := 7.

(** [pebble.Metrics], the fields the telemetry reads; the nested
    anonymous structs are flattened into one record. *)
Record Metrics : Type := mkMetrics {
  Compact_Count : Z;           (* int64 *)
  Compact_EstimatedDebt : Z;   (* uint64 *)
  Compact_MarkedFiles : Z;     (* int *)
  Flush_Count : Z;             (* int64 *)
  Keys_TombstoneCount : Z;     (* uint64 *)
  Levels : vec LevelMetrics numLevels;
  MemTable_Size : Z;           (* uint64 *)
  TableCache_Size : Z;         (* int64 *)
  (* The two methods of [*pebble.Metrics] the telemetry calls belong to
     the pebble library and are functions of the snapshot: a snapshot
     carries the value each of them returns on it. *)
  DiskSpaceUsage : Z;          (* uint64 *)
  Total : LevelMetrics;
}.

End pebble.

(** ** otel/metric: instruments, observer, registration, meter *)

Module metric.

(** The dynamic values behind the interfaces of [otel/metric]; the
    packages that implement them are collaborators. *)
Class Types : Type := {
  Meter : Type;
  Int64Counter : Type;
  Int64ObservableCounter : Type;
  Int64ObservableGauge : Type;
  Registration : Type;
  Observer : Type;
  Int64Counter_eq_dec :: EqDecision Int64Counter;
  Int64ObservableCounter_eq_dec :: EqDecision Int64ObservableCounter;
  Int64ObservableGauge_eq_dec :: EqDecision Int64ObservableGauge;
  Registration_eq_dec :: EqDecision Registration;
}.

(** [metric.WithDescription] and [metric.WithUnit]. *)
Inductive InstrumentOption : Type :=
| WithDescription (desc : string)
| WithUnit (unit : string).

Section Observable.
Context `{Types}.

(** A value of interface type [metric.Observable] (and of
    [metric.Int64Observable], which embeds it): nil, an observable
    counter or an observable gauge. *)
Definition Observable : Type :=
  option (Int64ObservableCounter + Int64ObservableGauge).

Definition ofCounter (c : option Int64ObservableCounter) : Observable :=
  inl <$> c.
Definition ofGauge (g : option Int64ObservableGauge) : Observable :=
  inr <$> g.
End Observable.

End metric.

(** ** Package telemetry *)

Module telemetry.

Import metric.

Definition bytesUnit : string := "by".
Definition countUnit : string := "1".

Section telemetry.
Context `{Types}.

(** The configuration [newConfig] builds from the options; only its
    meter is used. *)
Record config : Type := mkConfig {
  Meter : metric.Meter;
}.

(** What the package takes from outside [metrics.go]: the values of type
    [pebbleProvider] (functions [func() *pebble.Metrics]), the contexts,
    and [Option] with [newConfig], which the package declares in another
    file. *)
Class Package : Type := {
  pebbleProvider : Type;
  Context_ : Type;
  Option : Type;
  newConfig : list Option → config;
}.

Context `{Package}.

(** The calls made while sampling: the provider is asked for a snapshot,
    the observer is told a value.  The provider answers with a snapshot:
    the pointer it returns is taken not to be nil. *)
Inductive SampleCall : Type → Type :=
| Provider (provider : pebbleProvider) : SampleCall pebble.Metrics
| ObserveInt64 (obs : Observer) (obsrv : Observable) (value : Z)
  : SampleCall unit.

(** [metric.Callback]: [func(context.Context, metric.Observer) error]. *)
Definition Callback : Type :=
  Context_ → Observer → Prog SampleCall (option Go.error).

(** Every call the package can make to a collaborator, with the type of
    the answer.  The meter answers with the instrument or the
    registration it made, or with an error. *)
Inductive Call : Type → Type :=
| Meter_Int64Counter (meter : metric.Meter) (name : string)
    (options : list InstrumentOption) : Call (Int64Counter + Go.error)
| Meter_Int64ObservableCounter (meter : metric.Meter) (name : string)
    (options : list InstrumentOption)
  : Call (Int64ObservableCounter + Go.error)
| Meter_Int64ObservableGauge (meter : metric.Meter) (name : string)
    (options : list InstrumentOption)
  : Call (Int64ObservableGauge + Go.error)
| Meter_RegisterCallback (meter : metric.Meter) (f : Callback)
    (instruments : list Observable) : Call (Registration + Go.error)
| Registration_Unregister (r : Registration) : Call (option Go.error)
| Sample {X : Type} (c : SampleCall X) : Call X.

(** [Metrics]: five synchronous counters, fourteen asynchronous
    instruments and the registration of the callback.  A field of
    interface type holds nil or a value. *)
Record Metrics : Type := mkMetrics {
  RequestsTotal : option metric.Int64Counter;
  RequestsFailed : option metric.Int64Counter;
  EventsTotal : option metric.Int64Counter;
  EventsProcessed : option metric.Int64Counter;
  BytesIngested : option metric.Int64Counter;
  pebbleFlushes : option metric.Int64ObservableCounter;
  pebbleFlushedBytes : option metric.Int64ObservableCounter;
  pebbleCompactions : option metric.Int64ObservableCounter;
  pebbleIngestedBytes : option metric.Int64ObservableCounter;
  pebbleCompactedBytesRead : option metric.Int64ObservableCounter;
  pebbleCompactedBytesWritten : option metric.Int64ObservableCounter;
  pebbleMemtableTotalSize : option metric.Int64ObservableGauge;
  pebbleTotalDiskUsage : option metric.Int64ObservableGauge;
  pebbleReadAmplification : option metric.Int64ObservableGauge;
  pebbleNumSSTables : option metric.Int64ObservableGauge;
  pebbleTableReadersMemEstimate : option metric.Int64ObservableGauge;
  pebblePendingCompaction : option metric.Int64ObservableGauge;
  pebbleMarkedForCompactionFiles : option metric.Int64ObservableGauge;
  pebbleKeysTombstones : option metric.Int64ObservableGauge;
  registration : option metric.Registration;
}.

(** [var i Metrics]: every field is nil. *)
Definition zeroMetrics : Metrics :=
  mkMetrics None None None None None None None None None None
            None None None None None None None None None None.

(** Assignments [i.f = v], one per field. *)
Definition set_RequestsTotal (v : option metric.Int64Counter)
    (i : Metrics) : Metrics :=
  let '(mkMetrics _ x2 x3 x4 x5 x6 x7 x8 x9 x10 x11
                  x12 x13 x14 x15 x16 x17 x18 x19 x20) := i in
  mkMetrics v x2 x3 x4 x5 x6 x7 x8 x9 x10 x11
            x12 x13 x14 x15 x16 x17 x18 x19 x20.
Definition set_RequestsFailed (v : option metric.Int64Counter)
    (i : Metrics) : Metrics :=
  let '(mkMetrics x1 _ x3 x4 x5 x6 x7 x8 x9 x10 x11
                  x12 x13 x14 x15 x16 x17 x18 x19 x20) := i in
  mkMetrics x1 v x3 x4 x5 x6 x7 x8 x9 x10 x11
            x12 x13 x14 x15 x16 x17 x18 x19 x20.
Definition set_EventsTotal (v : option metric.Int64Counter)
    (i : Metrics) : Metrics :=
  let '(mkMetrics x1 x2 _ x4 x5 x6 x7 x8 x9 x10 x11
                  x12 x13 x14 x15 x16 x17 x18 x19 x20) := i in
  mkMetrics x1 x2 v x4 x5 x6 x7 x8 x9 x10 x11
            x12 x13 x14 x15 x16 x17 x18 x19 x20.
Definition set_EventsProcessed (v : option metric.Int64Counter)
    (i : Metrics) : Metrics :=
  let '(mkMetrics x1 x2 x3 _ x5 x6 x7 x8 x9 x10 x11
                  x12 x13 x14 x15 x16 x17 x18 x19 x20) := i in
  mkMetrics x1 x2 x3 v x5 x6 x7 x8 x9 x10 x11
            x12 x13 x14 x15 x16 x17 x18 x19 x20.
Definition set_BytesIngested (v : option metric.Int64Counter)
    (i : Metrics) : Metrics :=
  let '(mkMetrics x1 x2 x3 x4 _ x6 x7 x8 x9 x10 x11
                  x12 x13 x14 x15 x16 x17 x18 x19 x20) := i in
  mkMetrics x1 x2 x3 x4 v x6 x7 x8 x9 x10 x11
            x12 x13 x14 x15 x16 x17 x18 x19 x20.
Definition set_pebbleFlushes (v : option metric.Int64ObservableCounter)
    (i : Metrics) : Metrics :=
  let '(mkMetrics x1 x2 x3 x4 x5 _ x7 x8 x9 x10 x11
                  x12 x13 x14 x15 x16 x17 x18 x19 x20) := i in
  mkMetrics x1 x2 x3 x4 x5 v x7 x8 x9 x10 x11
            x12 x13 x14 x15 x16 x17 x18 x19 x20.
Definition set_pebbleFlushedBytes (v : option metric.Int64ObservableCounter)
    (i : Metrics) : Metrics :=
  let '(mkMetrics x1 x2 x3 x4 x5 x6 _ x8 x9 x10 x11
                  x12 x13 x14 x15 x16 x17 x18 x19 x20) := i in
  mkMetrics x1 x2 x3 x4 x5 x6 v x8 x9 x10 x11
            x12 x13 x14 x15 x16 x17 x18 x19 x20.
Definition set_pebbleCompactions (v : option metric.Int64ObservableCounter)
    (i : Metrics) : Metrics :=
  let '(mkMetrics x1 x2 x3 x4 x5 x6 x7 _ x9 x10 x11
                  x12 x13 x14 x15 x16 x17 x18 x19 x20) := i in
  mkMetrics x1 x2 x3 x4 x5 x6 x7 v x9 x10 x11
            x12 x13 x14 x15 x16 x17 x18 x19 x20.
Definition set_pebbleIngestedBytes (v : option metric.Int64ObservableCounter)
    (i : Metrics) : Metrics :=
  let '(mkMetrics x1 x2 x3 x4 x5 x6 x7 x8 _ x10 x11
                  x12 x13 x14 x15 x16 x17 x18 x19 x20) := i in
  mkMetrics x1 x2 x3 x4 x5 x6 x7 x8 v x10 x11
            x12 x13 x14 x15 x16 x17 x18 x19 x20.
Definition set_pebbleCompactedBytesRead (v : option metric.Int64ObservableCounter)
    (i : Metrics) : Metrics :=
  let '(mkMetrics x1 x2 x3 x4 x5 x6 x7 x8 x9 _ x11
                  x12 x13 x14 x15 x16 x17 x18 x19 x20) := i in
  mkMetrics x1 x2 x3 x4 x5 x6 x7 x8 x9 v x11
            x12 x13 x14 x15 x16 x17 x18 x19 x20.
Definition set_pebbleCompactedBytesWritten (v : option metric.Int64ObservableCounter)
    (i : Metrics) : Metrics :=
  let '(mkMetrics x1 x2 x3 x4 x5 x6 x7 x8 x9 x10 _
                  x12 x13 x14 x15 x16 x17 x18 x19 x20) := i in
  mkMetrics x1 x2 x3 x4 x5 x6 x7 x8 x9 x10 v
            x12 x13 x14 x15 x16 x17 x18 x19 x20.
Definition set_pebbleMemtableTotalSize (v : option metric.Int64ObservableGauge)
    (i : Metrics) : Metrics :=
  let '(mkMetrics x1 x2 x3 x4 x5 x6 x7 x8 x9 x10
                  x11 _ x13 x14 x15 x16 x17 x18 x19 x20) := i in
  mkMetrics x1 x2 x3 x4 x5 x6 x7 x8 x9 x10
            x11 v x13 x14 x15 x16 x17 x18 x19 x20.
Definition set_pebbleTotalDiskUsage (v : option metric.Int64ObservableGauge)
    (i : Metrics) : Metrics :=
  let '(mkMetrics x1 x2 x3 x4 x5 x6 x7 x8 x9 x10
                  x11 x12 _ x14 x15 x16 x17 x18 x19 x20) := i in
  mkMetrics x1 x2 x3 x4 x5 x6 x7 x8 x9 x10
            x11 x12 v x14 x15 x16 x17 x18 x19 x20.
Definition set_pebbleReadAmplification (v : option metric.Int64ObservableGauge)
    (i : Metrics) : Metrics :=
  let '(mkMetrics x1 x2 x3 x4 x5 x6 x7 x8 x9 x10
                  x11 x12 x13 _ x15 x16 x17 x18 x19 x20) := i in
  mkMetrics x1 x2 x3 x4 x5 x6 x7 x8 x9 x10
            x11 x12 x13 v x15 x16 x17 x18 x19 x20.
Definition set_pebbleNumSSTables (v : option metric.Int64ObservableGauge)
    (i : Metrics) : Metrics :=
  let '(mkMetrics x1 x2 x3 x4 x5 x6 x7 x8 x9 x10
                  x11 x12 x13 x14 _ x16 x17 x18 x19 x20) := i in
  mkMetrics x1 x2 x3 x4 x5 x6 x7 x8 x9 x10
            x11 x12 x13 x14 v x16 x17 x18 x19 x20.
Definition set_pebbleTableReadersMemEstimate (v : option metric.Int64ObservableGauge)
    (i : Metrics) : Metrics :=
  let '(mkMetrics x1 x2 x3 x4 x5 x6 x7 x8 x9 x10
                  x11 x12 x13 x14 x15 _ x17 x18 x19 x20) := i in
  mkMetrics x1 x2 x3 x4 x5 x6 x7 x8 x9 x10
            x11 x12 x13 x14 x15 v x17 x18 x19 x20.
Definition set_pebblePendingCompaction (v : option metric.Int64ObservableGauge)
    (i : Metrics) : Metrics :=
  let '(mkMetrics x1 x2 x3 x4 x5 x6 x7 x8 x9 x10
                  x11 x12 x13 x14 x15 x16 _ x18 x19 x20) := i in
  mkMetrics x1 x2 x3 x4 x5 x6 x7 x8 x9 x10
            x11 x12 x13 x14 x15 x16 v x18 x19 x20.
Definition set_pebbleMarkedForCompactionFiles (v : option metric.Int64ObservableGauge)
    (i : Metrics) : Metrics :=
  let '(mkMetrics x1 x2 x3 x4 x5 x6 x7 x8 x9 x10
                  x11 x12 x13 x14 x15 x16 x17 _ x19 x20) := i in
  mkMetrics x1 x2 x3 x4 x5 x6 x7 x8 x9 x10
            x11 x12 x13 x14 x15 x16 x17 v x19 x20.
Definition set_pebbleKeysTombstones (v : option metric.Int64ObservableGauge)
    (i : Metrics) : Metrics :=
  let '(mkMetrics x1 x2 x3 x4 x5 x6 x7 x8 x9 x10
                  x11 x12 x13 x14 x15 x16 x17 x18 _ x20) := i in
  mkMetrics x1 x2 x3 x4 x5 x6 x7 x8 x9 x10
            x11 x12 x13 x14 x15 x16 x17 x18 v x20.
Definition set_registration (v : option metric.Registration)
    (i : Metrics) : Metrics :=
  let '(mkMetrics x1 x2 x3 x4 x5 x6 x7 x8 x9 x10
                  x11 x12 x13 x14 x15 x16 x17 x18 x19 _) := i in
  mkMetrics x1 x2 x3 x4 x5 x6 x7 x8 x9 x10
            x11 x12 x13 x14 x15 x16 x17 x18 x19 v.

(** [if err != nil { return nil, fmt.Errorf(msg + "%w", err) }] *)
Notation "'check' e 'orelse' msg ; k" :=
  (match e with
   | Some e' => Ret (None, Some (Go.Errorf msg e'))
   | None => k
   end)
  (at level 20, e at level 9, msg at level 9, k at level 200, only parsing).

(** The function literal of [registerCallback]: one snapshot, fourteen
    observations. *)
Definition callback (i : Metrics) (provider : pebbleProvider) : Callback :=
  λ ctx obs,
  pm ⇐ Provider provider;
  _ ⇐ ObserveInt64 obs (ofGauge (pebbleMemtableTotalSize i))
        (Go.int64_of_uint64 (pebble.MemTable_Size pm));
  _ ⇐ ObserveInt64 obs (ofGauge (pebbleTotalDiskUsage i))
        (Go.int64_of_uint64 (pebble.DiskSpaceUsage pm));

  _ ⇐ ObserveInt64 obs (ofCounter (pebbleFlushes i)) (pebble.Flush_Count pm);
  _ ⇐ ObserveInt64 obs (ofCounter (pebbleFlushedBytes i))
        (Go.int64_of_uint64
           (pebble.BytesFlushed (pebble.Levels pm !!! 0%fin)));

  _ ⇐ ObserveInt64 obs (ofCounter (pebbleCompactions i))
        (pebble.Compact_Count pm);
  _ ⇐ ObserveInt64 obs (ofGauge (pebblePendingCompaction i))
        (Go.int64_of_uint64 (pebble.Compact_EstimatedDebt pm));
  _ ⇐ ObserveInt64 obs (ofGauge (pebbleMarkedForCompactionFiles i))
        (Go.int64_of_int (pebble.Compact_MarkedFiles pm));

  _ ⇐ ObserveInt64 obs (ofGauge (pebbleTableReadersMemEstimate i))
        (pebble.TableCache_Size pm);
  _ ⇐ ObserveInt64 obs (ofGauge (pebbleKeysTombstones i))
        (Go.int64_of_uint64 (pebble.Keys_TombstoneCount pm));

  let lm := pebble.Total pm in
  _ ⇐ ObserveInt64 obs (ofGauge (pebbleNumSSTables i)) (pebble.NumFiles lm);
  _ ⇐ ObserveInt64 obs (ofCounter (pebbleIngestedBytes i))
        (Go.int64_of_uint64 (pebble.BytesIngested lm));
  _ ⇐ ObserveInt64 obs (ofCounter (pebbleCompactedBytesRead i))
        (Go.int64_of_uint64 (pebble.BytesRead lm));
  _ ⇐ ObserveInt64 obs (ofCounter (pebbleCompactedBytesWritten i))
        (Go.int64_of_uint64 (pebble.BytesCompacted lm));
  _ ⇐ ObserveInt64 obs (ofGauge (pebbleReadAmplification i))
        (Go.int64_of_int32 (pebble.Sublevels lm));
  Ret None.

(** The instruments [registerCallback] names when it registers. *)
Definition registered (i : Metrics) : list Observable :=
  [ ofGauge (pebbleMemtableTotalSize i);
    ofGauge (pebbleTotalDiskUsage i);
    ofCounter (pebbleFlushes i);
    ofCounter (pebbleFlushedBytes i);
    ofCounter (pebbleCompactions i);
    ofCounter (pebbleIngestedBytes i);
    ofCounter (pebbleCompactedBytesRead i);
    ofCounter (pebbleCompactedBytesWritten i);
    ofGauge (pebbleReadAmplification i);
    ofGauge (pebbleNumSSTables i);
    ofGauge (pebbleTableReadersMemEstimate i);
    ofGauge (pebblePendingCompaction i);
    ofGauge (pebbleMarkedForCompactionFiles i);
    ofGauge (pebbleKeysTombstones i) ].

(** [(i *Metrics) registerCallback]: the receiver after the call and the
    error. *)
Definition registerCallback (i : Metrics) (meter : metric.Meter)
    (provider : pebbleProvider) : Prog Call (Metrics * option Go.error) :=
  r ⇐ Meter_RegisterCallback meter (callback i provider) (registered i);
  let i := set_registration (Go.value r) i in
  Ret (i, Go.err r).

(** [NewMetrics]: the pointer returned (nil or the new [Metrics]) and
    the error. *)
Definition NewMetrics (provider : pebbleProvider) (opts : list Option)
  : Prog Call (option Metrics * option Go.error) :=
  let i := zeroMetrics in
  let cfg := newConfig opts in
  let meter := Meter cfg in

  r ⇐ Meter_Int64Counter meter "aggregator.requests.total"
        [ WithDescription "Total number of aggregation requests";
          WithUnit countUnit ];
  let i := set_RequestsTotal (Go.value r) i in
  check (Go.err r) orelse "failed to create metric for requests total: ";
  r ⇐ Meter_Int64Counter meter "aggregator.requests.failed"
        [ WithDescription
            "Total number of aggregation requests failed, including partial failures";
          WithUnit countUnit ];
  let i := set_RequestsFailed (Go.value r) i in
  check (Go.err r) orelse "failed to create metric for requests failed: ";
  r ⇐ Meter_Int64Counter meter "aggregator.events.total"
        [ WithDescription
            "Total number of APM Events requested for aggregation per aggregation interval";
          WithUnit countUnit ];
  let i := set_EventsTotal (Go.value r) i in
  check (Go.err r) orelse "failed to create metric for events total: ";
  r ⇐ Meter_Int64Counter meter "aggregator.events.processed"
        [ WithDescription
            "APM Events successfully aggregated by the aggregator per aggregation interval";
          WithUnit countUnit ];
  let i := set_EventsProcessed (Go.value r) i in
  check (Go.err r) orelse "failed to create metric for events processed: ";
  r ⇐ Meter_Int64Counter meter "aggregator.bytes.ingested"
        [ WithDescription "Number of bytes ingested by the aggregators";
          WithUnit bytesUnit ];
  let i := set_BytesIngested (Go.value r) i in
  check (Go.err r) orelse "failed to create metric for bytes processed: ";

  r ⇐ Meter_Int64ObservableCounter meter "pebble.flushes"
        [ WithDescription "Number of memtable flushes to disk";
          WithUnit countUnit ];
  let i := set_pebbleFlushes (Go.value r) i in
  check (Go.err r) orelse "failed to create metric for flushes: ";
  r ⇐ Meter_Int64ObservableCounter meter "pebble.flushed-bytes"
        [ WithDescription "Bytes written during flush";
          WithUnit bytesUnit ];
  let i := set_pebbleFlushedBytes (Go.value r) i in
  check (Go.err r) orelse "failed to create metric for flushed bytes: ";
  r ⇐ Meter_Int64ObservableCounter meter "pebble.compactions"
        [ WithDescription "Number of table compactions";
          WithUnit countUnit ];
  let i := set_pebbleCompactions (Go.value r) i in
  check (Go.err r) orelse "failed to create metric for compactions: ";
  r ⇐ Meter_Int64ObservableCounter meter "pebble.ingested-bytes"
        [ WithDescription "Bytes ingested";
          WithUnit bytesUnit ];
  let i := set_pebbleIngestedBytes (Go.value r) i in
  check (Go.err r) orelse "failed to create metric for ingested bytes: ";
  r ⇐ Meter_Int64ObservableCounter meter "pebble.compacted-bytes-read"
        [ WithDescription "Bytes read during compaction";
          WithUnit bytesUnit ];
  let i := set_pebbleCompactedBytesRead (Go.value r) i in
  check (Go.err r) orelse "failed to create metric for compacted bytes read: ";
  r ⇐ Meter_Int64ObservableCounter meter "pebble.compacted-bytes-written"
        [ WithDescription "Bytes written during compaction";
          WithUnit bytesUnit ];
  let i := set_pebbleCompactedBytesWritten (Go.value r) i in
  check (Go.err r)
    orelse "failed to create metric for compacted bytes written: ";
  r ⇐ Meter_Int64ObservableGauge meter "pebble.memtable.total-size"
        [ WithDescription "Current size of memtable in bytes";
          WithUnit bytesUnit ];
  let i := set_pebbleMemtableTotalSize (Go.value r) i in
  check (Go.err r) orelse "failed to create metric for memtable size: ";
  r ⇐ Meter_Int64ObservableGauge meter "pebble.disk.usage"
        [ WithDescription
            "Total disk usage by pebble, including live and obsolete files";
          WithUnit bytesUnit ];
  let i := set_pebbleTotalDiskUsage (Go.value r) i in
  check (Go.err r) orelse "failed to create metric for total disk usage: ";
  r ⇐ Meter_Int64ObservableGauge meter "pebble.read-amplification"
        [ WithDescription "Current read amplification for the db";
          WithUnit countUnit ];
  let i := set_pebbleReadAmplification (Go.value r) i in
  check (Go.err r) orelse "failed to create metric for read amplification: ";
  r ⇐ Meter_Int64ObservableGauge meter "pebble.num-sstables"
        [ WithDescription "Current number of storage engine SSTables";
          WithUnit countUnit ];
  let i := set_pebbleNumSSTables (Go.value r) i in
  check (Go.err r) orelse "failed to create metric for count of sstables: ";
  r ⇐ Meter_Int64ObservableGauge meter "pebble.table-readers-mem-estimate"
        [ WithDescription "Memory used by index and filter blocks";
          WithUnit bytesUnit ];
  let i := set_pebbleTableReadersMemEstimate (Go.value r) i in
  check (Go.err r) orelse "failed to create metric for table cache readers: ";
  r ⇐ Meter_Int64ObservableGauge meter "pebble.estimated-pending-compaction"
        [ WithDescription "Estimated pending compaction bytes";
          WithUnit bytesUnit ];
  let i := set_pebblePendingCompaction (Go.value r) i in
  check (Go.err r) orelse "failed to create metric for pending compaction: ";
  r ⇐ Meter_Int64ObservableGauge meter "pebble.marked-for-compaction-files"
        [ WithDescription "Count of SSTables marked for compaction";
          WithUnit countUnit ];
  let i := set_pebbleMarkedForCompactionFiles (Go.value r) i in
  check (Go.err r)
    orelse "failed to create metric for compaction marked files: ";
  r ⇐ Meter_Int64ObservableGauge meter "pebble.keys.tombstone.count"
        [ WithDescription
            "Approximate count of delete keys across the storage engine";
          WithUnit countUnit ];
  let i := set_pebbleKeysTombstones (Go.value r) i in
  check (Go.err r) orelse "failed to create metric for tombstones: ";

  bind (registerCallback i meter provider) (λ r,
  let i := r.1 in
  check (r.2) orelse "failed to register callback: ";
  Ret (Some i, None)).

(** [(i *Metrics) CleanUp]: nothing to do for a nil receiver or a nil
    registration, otherwise the callback is unregistered. *)
Definition CleanUp (i : option Metrics) : Prog Call (option Go.error) :=
  match i with
  | None => Ret None
  | Some i =>
      match registration i with
      | None => Ret None
      | Some r =>
          e ⇐ Registration_Unregister r;
          match e with
          | Some e => Ret (Some (Go.Errorf "failed to unregister callback: " e))
          | None => Ret None
          end
      end
  end.

(** *** Reading a trace *)

(** Is the call one of the sampling calls? *)
Definition isSample (ev : Event Call) : bool :=
  match ev with
  | Ev c _ => match c with Sample _ => true | _ => false end
  end.

(** The counter a successful [meter.Int64Counter] call created, with the
    name it was asked for. *)
Definition createdCounter (ev : Event Call)
  : option (string * Int64Counter) :=
  match ev with
  | Ev c x =>
      match c in Call X return X → option (string * Int64Counter) with
      | Meter_Int64Counter _ name _ => λ x, pair name <$> Go.value x
      | _ => λ _, None
      end x
  end.

(** The callback and the instruments of a [meter.RegisterCallback] call,
    with the meter's answer. *)
Definition registerCall (ev : Event Call)
  : option (Callback * list Observable * (Registration + Go.error)) :=
  match ev with
  | Ev c x =>
      match c in Call X
            return X → option (Callback * list Observable
                               * (Registration + Go.error)) with
      | Meter_RegisterCallback _ f instruments =>
          λ x, Some (f, instruments, x)
      | _ => λ _, None
      end x
  end.

(** The registration a successful [meter.RegisterCallback] call made. *)
Definition registered_by (ev : Event Call) : option Registration :=
  r ← registerCall ev; Go.value r.2.

(** The steps of [NewMetrics] that can fail: the creation of the
    instrument of a given name, or the registration of the callback. *)
Inductive Step : Type :=
| CreateInstrument (name : string)
| RegisterTheCallback.

(** The step of a meter call that answered with an error, and the
    error. *)
Definition failedStep (ev : Event Call) : option (Step * Go.error) :=
  match ev with
  | Ev c x =>
      match c in Call X return X → option (Step * Go.error) with
      | Meter_Int64Counter _ name _
      | Meter_Int64ObservableCounter _ name _
      | Meter_Int64ObservableGauge _ name _ =>
          λ x, pair (CreateInstrument name) <$> Go.err x
      | Meter_RegisterCallback _ _ _ =>
          λ x, pair RegisterTheCallback <$> Go.err x
      | _ => λ _, None
      end x
  end.

(** The instrument and the value of an [obs.ObserveInt64] call. *)
Definition observation (ev : Event SampleCall) : option (Observable * Z) :=
  match ev with
  | Ev c _ =>
      match c with
      | ObserveInt64 _ obsrv value => Some (obsrv, value)
      | _ => None
      end
  end.

(** The snapshot a call of the provider returned. *)
Definition snapshot (ev : Event SampleCall)
  : option (pebbleProvider * pebble.Metrics) :=
  match ev with
  | Ev c x =>
      match c in SampleCall X
            return X → option (pebbleProvider * pebble.Metrics) with
      | Provider provider => λ pm, Some (provider, pm)
      | _ => λ _, None
      end x
  end.

(** The values observed on one instrument, in order. *)
Definition observedOn (obsrv : Observable) (t : list (Event SampleCall))
  : list Z :=
  (filter (λ o, o.1 = obsrv) (omap observation t)).*2.

(** *** The telemetry surface *)

(** The engine statistics of the telemetry surface, each with the
    instrument of [i] it is reported on and the way its value is read
    from a snapshot: flush count, flushed bytes, compaction count,
    compacted bytes read and written, ingested bytes, memtable size,
    total disk usage, read amplification, table count, pending-compaction
    estimate and tombstone count. *)
Definition engineStatistics (i : Metrics)
  : list (Observable * (pebble.Metrics → Z)) :=
  [ (ofCounter (pebbleFlushes i), pebble.Flush_Count);
    (ofCounter (pebbleFlushedBytes i),
     λ pm, Go.int64_of_uint64
             (pebble.BytesFlushed (pebble.Levels pm !!! 0%fin)));
    (ofCounter (pebbleCompactions i), pebble.Compact_Count);
    (ofCounter (pebbleCompactedBytesRead i),
     λ pm, Go.int64_of_uint64 (pebble.BytesRead (pebble.Total pm)));
    (ofCounter (pebbleCompactedBytesWritten i),
     λ pm, Go.int64_of_uint64 (pebble.BytesCompacted (pebble.Total pm)));
    (ofCounter (pebbleIngestedBytes i),
     λ pm, Go.int64_of_uint64 (pebble.BytesIngested (pebble.Total pm)));
    (ofGauge (pebbleMemtableTotalSize i),
     λ pm, Go.int64_of_uint64 (pebble.MemTable_Size pm));
    (ofGauge (pebbleTotalDiskUsage i),
     λ pm, Go.int64_of_uint64 (pebble.DiskSpaceUsage pm));
    (ofGauge (pebbleReadAmplification i),
     λ pm, Go.int64_of_int32 (pebble.Sublevels (pebble.Total pm)));
    (ofGauge (pebbleNumSSTables i),
     λ pm, pebble.NumFiles (pebble.Total pm));
    (ofGauge (pebblePendingCompaction i),
     λ pm, Go.int64_of_uint64 (pebble.Compact_EstimatedDebt pm));
    (ofGauge (pebbleKeysTombstones i),
     λ pm, Go.int64_of_uint64 (pebble.Keys_TombstoneCount pm)) ].

(** The names of the five synchronous counters, in the order of the
    fields of [Metrics]. *)
Definition counterNames : list string :=
  [ "aggregator.requests.total"; "aggregator.requests.failed";
    "aggregator.events.total"; "aggregator.events.processed";
    "aggregator.bytes.ingested" ].

(** The five exported counters of [i]. *)
Definition exportedCounters (i : Metrics) : list (option Int64Counter) :=
  [ RequestsTotal i; RequestsFailed i; EventsTotal i; EventsProcessed i;
    BytesIngested i ].

(** Modelled from the spec: the Aggregator is not among the sources; it
    increments process-wide counters for events received, events
    successfully merged and bytes processed.  On [Metrics] these are the
    counters of the events requested for aggregation, of the events
    aggregated and of the bytes ingested, given with their names. *)
Definition aggregatorCounters (i : Metrics)
  : list (string * option Int64Counter) :=
  [ ("aggregator.events.total", EventsTotal i);
    ("aggregator.events.processed", EventsProcessed i);
    ("aggregator.bytes.ingested", BytesIngested i) ].

(** How the error of [NewMetrics] calls each instrument, by the name of
    the instrument. *)
Definition metricLabels : list (string * string) :=
  [ ("aggregator.requests.total", "requests total");
    ("aggregator.requests.failed", "requests failed");
    ("aggregator.events.total", "events total");
    ("aggregator.events.processed", "events processed");
    ("aggregator.bytes.ingested", "bytes processed");
    ("pebble.flushes", "flushes");
    ("pebble.flushed-bytes", "flushed bytes");
    ("pebble.compactions", "compactions");
    ("pebble.ingested-bytes", "ingested bytes");
    ("pebble.compacted-bytes-read", "compacted bytes read");
    ("pebble.compacted-bytes-written", "compacted bytes written");
    ("pebble.memtable.total-size", "memtable size");
    ("pebble.disk.usage", "total disk usage");
    ("pebble.read-amplification", "read amplification");
    ("pebble.num-sstables", "count of sstables");
    ("pebble.table-readers-mem-estimate", "table cache readers");
    ("pebble.estimated-pending-compaction", "pending compaction");
    ("pebble.marked-for-compaction-files", "compaction marked files");
    ("pebble.keys.tombstone.count", "tombstones") ].

Fixpoint assoc (k : string) (l : list (string * string)) : string :=
  match l with
  | [] => ""
  | (k', v) :: l => if String.eqb k k' then v else assoc k l
  end.

(** The text before the wrapped error in the error of [NewMetrics], for
    each step. *)
Definition failureMessage (st : Step) : string :=
  match st with
  | CreateInstrument name =>
      "failed to create metric for " +:+ assoc name metricLabels +:+ ": "
  | RegisterTheCallback => "failed to register callback: "
  end.

(** The twenty steps of [NewMetrics]. *)
Definition steps : list Step :=
  (CreateInstrument <$> metricLabels.*1) ++ [RegisterTheCallback].

(** *** Reading more of a trace *)

(** The step a call attempts, whatever the meter answers. *)
Definition attempted (ev : Event Call) : option Step :=
  match ev with
  | Ev c _ =>
      match c with
      | Meter_Int64Counter _ name _
      | Meter_Int64ObservableCounter _ name _
      | Meter_Int64ObservableGauge _ name _ => Some (CreateInstrument name)
      | Meter_RegisterCallback _ _ _ => Some RegisterTheCallback
      | _ => None
      end
  end.

(** The meter a call is made on. *)
Definition meterOf (ev : Event Call) : option metric.Meter :=
  match ev with
  | Ev c _ =>
      match c with
      | Meter_Int64Counter meter _ _
      | Meter_Int64ObservableCounter meter _ _
      | Meter_Int64ObservableGauge meter _ _
      | Meter_RegisterCallback meter _ _ => Some meter
      | _ => None
      end
  end.

(** The three kinds of instrument the package asks for. *)
Inductive Kind : Type :=
| SyncCounter
| ObservableCounter
| ObservableGauge.

(** The kind, the name and the options of a call that asks the meter for
    an instrument. *)
Definition creation (ev : Event Call)
  : option (Kind * string * list InstrumentOption) :=
  match ev with
  | Ev c _ =>
      match c with
      | Meter_Int64Counter _ name options =>
          Some (SyncCounter, name, options)
      | Meter_Int64ObservableCounter _ name options =>
          Some (ObservableCounter, name, options)
      | Meter_Int64ObservableGauge _ name options =>
          Some (ObservableGauge, name, options)
      | _ => None
      end
  end.

(** The asynchronous instrument a successful call created, with the name
    it was asked for. *)
Definition createdObservable (ev : Event Call)
  : option (string * (Int64ObservableCounter + Int64ObservableGauge)) :=
  match ev with
  | Ev c x =>
      match c in Call X
            return X → option (string * (Int64ObservableCounter
                                         + Int64ObservableGauge)) with
      | Meter_Int64ObservableCounter _ name _ =>
          λ x, (λ v, (name, inl v)) <$> Go.value x
      | Meter_Int64ObservableGauge _ name _ =>
          λ x, (λ v, (name, inr v)) <$> Go.value x
      | _ => λ _, None
      end x
  end.

(** Is the call an [Unregister]? *)
Definition isUnregister (ev : Event Call) : bool :=
  match ev with
  | Ev c _ => match c with Registration_Unregister _ => true | _ => false end
  end.

(** The names of the fourteen asynchronous instruments and the fields of
    [i] that hold them, both in the order of the fields of [Metrics]. *)
Definition asyncNames : list string :=
  [ "pebble.flushes"; "pebble.flushed-bytes"; "pebble.compactions";
    "pebble.ingested-bytes"; "pebble.compacted-bytes-read";
    "pebble.compacted-bytes-written"; "pebble.memtable.total-size";
    "pebble.disk.usage"; "pebble.read-amplification";
    "pebble.num-sstables"; "pebble.table-readers-mem-estimate";
    "pebble.estimated-pending-compaction";
    "pebble.marked-for-compaction-files"; "pebble.keys.tombstone.count" ].

Definition asyncFields (i : Metrics) : list Observable :=
  [ ofCounter (pebbleFlushes i);
    ofCounter (pebbleFlushedBytes i);
    ofCounter (pebbleCompactions i);
    ofCounter (pebbleIngestedBytes i);
    ofCounter (pebbleCompactedBytesRead i);
    ofCounter (pebbleCompactedBytesWritten i);
    ofGauge (pebbleMemtableTotalSize i);
    ofGauge (pebbleTotalDiskUsage i);
    ofGauge (pebbleReadAmplification i);
    ofGauge (pebbleNumSSTables i);
    ofGauge (pebbleTableReadersMemEstimate i);
    ofGauge (pebblePendingCompaction i);
    ofGauge (pebbleMarkedForCompactionFiles i);
    ofGauge (pebbleKeysTombstones i) ].

(** The name space of each kind of instrument. *)
Definition nameSpace (k : Kind) : string :=
  match k with
  | SyncCounter => "aggregator."
  | ObservableCounter | ObservableGauge => "pebble."
  end.

(** The two statistics the callback reports besides the engine
    statistics of the telemetry surface: the memory of the table readers
    and the number of files marked for compaction. *)
Definition otherStatistics (i : Metrics)
  : list (Observable * (pebble.Metrics → Z)) :=
  [ (ofGauge (pebbleTableReadersMemEstimate i), pebble.TableCache_Size);
    (ofGauge (pebbleMarkedForCompactionFiles i),
     λ pm, Go.int64_of_int (pebble.Compact_MarkedFiles pm)) ].

(** The statistics that are unsigned 64-bit numbers in the snapshot, as
    they stand there, each with the instrument it is reported on. *)
Definition unsignedStatistics (i : Metrics)
  : list (Observable * (pebble.Metrics → Z)) :=
  [ (ofGauge (pebbleMemtableTotalSize i), pebble.MemTable_Size);
    (ofGauge (pebbleTotalDiskUsage i), pebble.DiskSpaceUsage);
    (ofCounter (pebbleFlushedBytes i),
     λ pm, pebble.BytesFlushed (pebble.Levels pm !!! 0%fin));
    (ofGauge (pebblePendingCompaction i), pebble.Compact_EstimatedDebt);
    (ofGauge (pebbleKeysTombstones i), pebble.Keys_TombstoneCount);
    (ofCounter (pebbleIngestedBytes i),
     λ pm, pebble.BytesIngested (pebble.Total pm));
    (ofCounter (pebbleCompactedBytesRead i),
     λ pm, pebble.BytesRead (pebble.Total pm));
    (ofCounter (pebbleCompactedBytesWritten i),
     λ pm, pebble.BytesCompacted (pebble.Total pm)) ].

End telemetry.
End telemetry.

(** ** A recording meter

    A small implementation of the collaborators, to run the package on:
    instruments are known by their names, registrations are numbered, the
    meter can be told to refuse names or the callback, and a registration
    refuses to be unregistered twice. *)

Module Recording.

Import metric telemetry.

#[global] Instance types : Types := {|
  metric.Meter := string;
  Int64Counter := string;
  Int64ObservableCounter := string;
  Int64ObservableGauge := string;
  Registration := nat;
  Observer := unit;
|}.

#[global] Instance package : Package := {|
  pebbleProvider := unit;
  Context_ := unit;
  Option := string;
  newConfig opts := mkConfig (List.last opts "aggregators");
|}.

Record World : Type := mkWorld {
  refused : list string;
  refuseCallback : bool;
  registrations : nat;
  unregistered : list nat;
  stats : pebble.Metrics;
  seen : list (Observable * Z);
}.

Definition create (name : string) (w : World) : string + Go.error :=
  if decide (name ∈ refused w)
  then inr (Go.errorString ("cannot create " +:+ name))
  else inl name.

Definition sampler : Handler SampleCall World :=
  λ X c w,
  match c in SampleCall X return X * World with
  | Provider _ => (stats w, w)
  | ObserveInt64 _ obsrv value =>
      (tt, mkWorld (refused w) (refuseCallback w) (registrations w)
             (unregistered w) (stats w) (seen w ++ [(obsrv, value)]))
  end.

Definition collaborators : Handler Call World :=
  λ X c w,
  match c in Call X return X * World with
  | Meter_Int64Counter _ name _ => (create name w, w)
  | Meter_Int64ObservableCounter _ name _ => (create name w, w)
  | Meter_Int64ObservableGauge _ name _ => (create name w, w)
  | Meter_RegisterCallback _ _ _ =>
      if refuseCallback w
      then (inr (Go.errorString "cannot register the callback"), w)
      else (inl (registrations w),
            mkWorld (refused w) (refuseCallback w) (S (registrations w))
              (unregistered w) (stats w) (seen w))
  | Registration_Unregister r =>
      if decide (r ∈ unregistered w)
      then (Some (Go.errorString "already unregistered"), w)
      else (None,
            mkWorld (refused w) (refuseCallback w) (registrations w)
              (r :: unregistered w) (stats w) (seen w))
  | Sample c => sampler _ c w
  end.

Definition level (n : Z) : pebble.LevelMetrics :=
  pebble.mkLevelMetrics n (10 * n) (100 * n) (1000 * n) (7 * n) (3 * n).

Definition someStats : pebble.Metrics :=
  pebble.mkMetrics 5 4096 2 9 17
    [# level 1; level 2; level 0; level 0; level 0; level 0; level 3]
    (2 ^ 20) 512 (2 ^ 30) (level 6).

Definition world : World := mkWorld [] false 0 [] someStats [].

(** The [Metrics] that [NewMetrics] builds in [world]. *)
Definition metrics : Metrics :=
  mkMetrics
    (Some "aggregator.requests.total") (Some "aggregator.requests.failed")
    (Some "aggregator.events.total") (Some "aggregator.events.processed")
    (Some "aggregator.bytes.ingested")
    (Some "pebble.flushes") (Some "pebble.flushed-bytes")
    (Some "pebble.compactions") (Some "pebble.ingested-bytes")
    (Some "pebble.compacted-bytes-read")
    (Some "pebble.compacted-bytes-written")
    (Some "pebble.memtable.total-size") (Some "pebble.disk.usage")
    (Some "pebble.read-amplification") (Some "pebble.num-sstables")
    (Some "pebble.table-readers-mem-estimate")
    (Some "pebble.estimated-pending-compaction")
    (Some "pebble.marked-for-compaction-files")
    (Some "pebble.keys.tombstone.count")
    (Some 0%nat).

End Recording.

(** ** The metric value and its merge

    The merge algebra is not among the sources; it is modelled from the
    specification (data model, component design 4.2). *)

Module aggregation.

Section MetricValue.

(** The largest value a count can hold, and the number of registers of
    the sketch: policy parameters, the same for all values. *)
Variable maxCount : N.
Variable registers : nat.

(** Modelled from the spec: the MetricValue of the merge algebra, which
    is not among the sources.  It holds an event count, the outcome
    counts, a latency histogram over buckets with fixed boundaries (a
    count for each populated bucket) and a distinct-count sketch with a
    register array of fixed size. *)
Record MetricValue : Type := mkMetricValue {
  eventCount : N;
  successCount : N;
  failureCount : N;
  unknownCount : N;
  histogram : gmap N N;
  sketch : vec N registers;
}.

(** Modelled from the spec: the addition of counts, which is not among
    the sources.  Counts are unsigned and saturate rather than wrap. *)
Definition addCount (a b : N) : N := N.min (a + b) maxCount.

(** Modelled from the spec: the merge of two histograms, which is not
    among the sources: bucket-wise, by addition. *)
Definition mergeHistogram (h1 h2 : gmap N N) : gmap N N :=
  union_with (λ c1 c2, Some (addCount c1 c2)) h1 h2.

(** Modelled from the spec: the merge of two sketches, which is not among
    the sources: register by register, the larger register is kept, as
    for every sketch estimating a distinct count from a register
    array. *)
Definition mergeSketch (s1 s2 : vec N registers) : vec N registers :=
  vzip_with N.max s1 s2.

(** Modelled from the spec: [Merge], which is not among the sources. *)
Definition Merge (a b : MetricValue) : MetricValue :=
  {| eventCount := addCount (eventCount a) (eventCount b);
     successCount := addCount (successCount a) (successCount b);
     failureCount := addCount (failureCount a) (failureCount b);
     unknownCount := addCount (unknownCount a) (unknownCount b);
     histogram := mergeHistogram (histogram a) (histogram b);
     sketch := mergeSketch (sketch a) (sketch b) |}.

(** Modelled from the spec: the contributions of a sequence of events to
    one key, applied one after the other to the current value
    (MergeWrite, which is not among the sources). *)
Definition applyAll (current : MetricValue) (contributions : list MetricValue)
  : MetricValue :=
  foldl Merge current contributions.

(** The same contributions merged group by group: each non-empty group is
    merged into one value first, and the values of the groups are then
    applied. *)
Definition group (g : MetricValue * list MetricValue) : MetricValue :=
  foldl Merge g.1 g.2.
Definition ungroup (g : MetricValue * list MetricValue) : list MetricValue :=
  g.1 :: g.2.

End MetricValue.

(** Counts of 64 bits. *)
Definition maxU64 : N := 2 ^ 64 - 1.

(** A sample value, with four registers. *)
Definition someValue (n : N) : MetricValue 4 :=
  mkMetricValue 4 n n 0 0 {[ n := 1%N ]} [# n; 0; 0; 1]%N.

End aggregation.

(** ** The buffer store, the aggregator's writes and the harvester

    None of them is among the sources; they are modelled from the
    specification (4.3, 4.5, 4.6 and 5) as a machine that takes one step
    at a time: the clock advances, the aggregator adds a contribution,
    or the harvester of one interval moves on. *)

Module harvest.

Import aggregation.

(** A window: the interval and the start of the window. *)
Definition Window : Type := Z * Z.

(** An aggregation key: the window, then the partition and the chain of
    identities. *)
Definition Key : Type := Window * (N * list string).

Definition window (k : Key) : Window := k.1.

Section Harvester.

Variable maxCount : N.
Variable registers : nat.

(** The grace delay of each interval. *)
Variable grace : Z → Z.

Abbreviation Value := (MetricValue registers).
Abbreviation Store := (gmap Key Value).

(** Modelled from the spec: the identity element, the value of an absent
    key (4.3); it is not among the sources. *)
Definition identity : Value :=
  mkMetricValue registers 0 0 0 0 ∅ (vreplicate registers 0%N).

(** Modelled from the spec: [MergeWrite] of the buffer store (4.3), which
    is not among the sources: read the current value, the identity if the
    key is absent, merge the contribution, write back. *)
Definition MergeWrite (k : Key) (contribution : Value) (store : Store)
  : Store :=
  <[k := Merge maxCount registers (default identity (store !! k))
                contribution]> store.

(** Modelled from the spec: [ScanWindow] (4.3), which is not among the
    sources: all entries whose key falls in the window. *)
Definition ScanWindow (w : Window) (store : Store) : Store :=
  filter (λ kv, window kv.1 = w) store.

(** Modelled from the spec: [DeleteWindow] (4.3), which is not among the
    sources: the range of the window is removed. *)
Definition DeleteWindow (w : Window) (store : Store) : Store :=
  filter (λ kv, window kv.1 ≠ w) store.

(** Modelled from the spec: a window is closed when the clock has crossed
    its boundary plus the grace delay of its interval (4.6); the timer of
    the harvester, not among the sources, fires then. *)
Definition closed (w : Window) (now : Z) : Prop :=
  w.2 + w.1 + grace w.1 ≤ now.

#[global] Instance closed_dec w now : Decision (closed w now).
Proof. unfold closed. apply _. Defined.

(** Modelled from the spec: the states of the harvester of one interval
    (4.6), which is not among the sources:
    Idle, Scanning, Finalizing, Publishing, Reclaiming. *)
Inductive Phase : Type :=
| Idle
| Scanning (start : Z)
| Finalizing (start : Z) (entries : Store)
| Publishing (start : Z) (records : list (Key * Value))
| Reclaiming (start : Z).

(** The machine: the wall clock, the buffer store, and the phase of the
    harvester of each interval (Idle when absent). *)
Record State : Type := mkState {
  now : Z;
  store : Store;
  harvesters : gmap Z Phase;
}.

Definition phase (interval : Z) (st : State) : Phase :=
  default Idle (harvesters st !! interval).

Definition enter (interval : Z) (p : Phase) (st : State) : State :=
  mkState (now st) (store st) (<[interval := p]> (harvesters st)).

(** What can happen next. *)
Inductive Action : Type :=
| Tick (d : Z)
| Add (k : Key) (contribution : Value)
| Fire (interval start : Z)
| Scan (interval : Z)
| Finalize (interval : Z)
| SinkAcknowledges (interval : Z)
| SinkFails (interval : Z)
| Reclaim (interval : Z)
| Abort (interval : Z).

(** What a step does to the store and the sink. *)
Inductive Event : Type :=
| Ticked
| MergeWritten (k : Key) (contribution : Value)
| TooLate (k : Key)
| TimerFired (w : Window)
| ScanWindowCalled (w : Window) (entries : Store)
| Published (w : Window) (records : list (Key * Value))
| Acknowledged (w : Window)
| PublishFailed (w : Window)
| DeleteWindowCalled (w : Window)
| Aborted (interval : Z).

(** Modelled from the spec: one step of the aggregator and of the
    harvester (4.5, 4.6, 5), which are not among the sources.
    - Time only advances.
    - The aggregator rejects as too late an event whose window is older
      than the oldest window still open, that is, whose window is closed;
      otherwise the contribution is merge-written.
    - The timer of an idle harvester fires for a closed window; Scanning
      calls [ScanWindow]; Finalizing turns the entries into records;
      Publishing hands them to the sink; only after the sink acknowledges
      does Reclaiming call [DeleteWindow]; if the sink fails, nothing is
      deleted and the window is retried; a cancelled or failed run is
      abandoned without deleting. *)
Definition step (st : State) (a : Action) : option (State * Event) :=
  match a with
  | Tick d =>
      if decide (0 ≤ d)
      then Some (mkState (now st + d) (store st) (harvesters st), Ticked)
      else None
  | Add k contribution =>
      if decide (closed (window k) (now st))
      then Some (st, TooLate k)
      else Some (mkState (now st) (MergeWrite k contribution (store st))
                   (harvesters st),
                 MergeWritten k contribution)
  | Fire interval start =>
      match phase interval st with
      | Idle =>
          if decide (closed (interval, start) (now st))
          then Some (enter interval (Scanning start) st,
                     TimerFired (interval, start))
          else None
      | _ => None
      end
  | Scan interval =>
      match phase interval st with
      | Scanning start =>
          let entries := ScanWindow (interval, start) (store st) in
          Some (enter interval (Finalizing start entries) st,
                ScanWindowCalled (interval, start) entries)
      | _ => None
      end
  | Finalize interval =>
      match phase interval st with
      | Finalizing start entries =>
          let records := map_to_list entries in
          Some (enter interval (Publishing start records) st,
                Published (interval, start) records)
      | _ => None
      end
  | SinkAcknowledges interval =>
      match phase interval st with
      | Publishing start _ =>
          Some (enter interval (Reclaiming start) st,
                Acknowledged (interval, start))
      | _ => None
      end
  | SinkFails interval =>
      match phase interval st with
      | Publishing start _ =>
          Some (enter interval Idle st, PublishFailed (interval, start))
      | _ => None
      end
  | Reclaim interval =>
      match phase interval st with
      | Reclaiming start =>
          Some (mkState (now st)
                  (DeleteWindow (interval, start) (store st))
                  (<[interval := Idle]> (harvesters st)),
                DeleteWindowCalled (interval, start))
      | _ => None
      end
  | Abort interval =>
      match phase interval st with
      | Idle => None
      | _ => Some (enter interval Idle st, Aborted interval)
      end
  end.

(** An execution: the steps one after the other, with the events they
    give; [None] when a step cannot be taken. *)
Fixpoint exec (st : State) (actions : list Action)
  : option (State * list Event) :=
  match actions with
  | [] => Some (st, [])
  | a :: actions =>
      '(st1, ev) ← step st a;
      '(st2, t) ← exec st1 actions;
      Some (st2, ev :: t)
  end.

(** The machine starts with every harvester idle. *)
Definition initial (clock : Z) (entries : Store) : State :=
  mkState clock entries ∅.

(** The interval of the harvester an event belongs to. *)
Definition harvesterOf (ev : Event) : option Z :=
  match ev with
  | TimerFired w | ScanWindowCalled w _ | Published w _ | Acknowledged w
  | PublishFailed w | DeleteWindowCalled w => Some w.1
  | Aborted interval => Some interval
  | Ticked | MergeWritten _ _ | TooLate _ => None
  end.

(** The events of the harvester of one interval, in order. *)
Definition eventsOf (interval : Z) (t : list Event) : list Event :=
  filter (λ ev, harvesterOf ev = Some interval) t.

(** What may not happen to a window once it has been reclaimed: a scan
    that finds entries in it, or a write that lands in it. *)
Definition respects (w : Window) (ev : Event) : Prop :=
  match ev with
  | ScanWindowCalled w' entries => w' = w → entries = ∅
  | MergeWritten k _ => window k ≠ w
  | _ => True
  end.

(** The window the harvester of an interval is working on. *)
Definition working (p : Phase) : option Z :=
  match p with
  | Idle => None
  | Scanning start | Finalizing start _ | Publishing start _
  | Reclaiming start => Some start
  end.

(** The windows an event reclaims. *)
Definition reclaimedBy (ev : Event) : gset Window :=
  match ev with
  | DeleteWindowCalled w => {[ w ]}
  | _ => ∅
  end.

(** Two invariants of the machine.  [settled]: the windows in
    [reclaimed] are closed and hold no entry, and every window a
    harvester works on is closed.  [acknowledged]: the latest event of a
    harvester that is publishing is the publication of its records, and
    the latest events of a harvester that is reclaiming a window are the
    publication of the records of that window and the acknowledgement of
    the sink. *)
Definition settled (reclaimed : gset Window) (st : State) : Prop :=
  (∀ w, w ∈ reclaimed →
     closed w (now st) ∧ ScanWindow w (store st) = ∅) ∧
  (∀ interval start, working (phase interval st) = Some start →
     closed (interval, start) (now st)).

Definition latest (interval : Z) (p : Phase) (events : list Event) : Prop :=
  match p with
  | Publishing start records =>
      last events = Some (Published (interval, start) records)
  | Reclaiming start =>
      ∃ before records,
        events = before ++ [ Published (interval, start) records;
                             Acknowledged (interval, start) ]
  | _ => True
  end.

Definition acknowledged (pre : list Event) (st : State) : Prop :=
  ∀ interval, latest interval (phase interval st) (eventsOf interval pre).

(** A sample: one key of the window that starts at 0 in the interval
    of length 60, written to, then harvested once the window has closed;
    a late write and a second harvest follow. *)
Definition sampleKey : Key := ((60, 0), (0%N, ["checkout-api"])).

Definition sampleRun (v : Value) : list Action :=
  [ Add sampleKey v; Tick 100; Fire 60 0; Scan 60; Finalize 60;
    SinkAcknowledges 60; Reclaim 60; Add sampleKey v; Fire 60 0; Scan 60 ].

End Harvester.

End harvest.


(** * Properties *)

Section wp.
Context {E : Type → Type}.

Lemma wp_run {S R} (p : Prog E R) Φ (h : Handler E S) (s : S) :
  wp p Φ → Φ (trace h p s) (result h p s).
Proof.
  unfold trace, result. revert Φ s.
  induction p as [r | X c k IH]; intros Φ s Hwp; simpl in *; [done|].
  destruct (h X c s) as [x s1] eqn:Hh.
  specialize (IH x _ s1 (Hwp x)).
  destruct (run h (k x) s1) as [[r s2] t]. done.
Qed.

Lemma wp_bind {A B} (p : Prog E A) (f : A → Prog E B) Φ :
  wp p (λ t a, wp (f a) (λ t' b, Φ (t ++ t')%list b)) → wp (bind p f) Φ.
Proof.
  revert Φ. induction p as [a | X c k IH]; intros Φ Hwp; simpl in *; [done|].
  intros x. apply IH, Hwp.
Qed.

Lemma wp_mono {R} (p : Prog E R) (Φ Ψ : list (Event E) → R → Prop) :
  (∀ t r, Φ t r → Ψ t r) → wp p Φ → wp p Ψ.
Proof.
  revert Φ Ψ. induction p as [r | X c k IH]; intros Φ Ψ HΦ Hwp; simpl in *.
  - by apply HΦ.
  - intros x. eapply IH; [|apply Hwp]. intros t r. apply HΦ.
Qed.

End wp.

Section TelemetryProperties.
Import metric telemetry.
Context {Ty : Types} {Pkg : Package}.

(** Walking through [NewMetrics]: one case for each answer of the
    meter. *)
Ltac walk_NewMetrics :=
  unfold NewMetrics, registerCallback; simpl;
  repeat (intros [?|?]; simpl).

Ltac walk_callback :=
  unfold callback; simpl; intros ?; repeat (intros []; simpl).

(** The function literal reads the instruments of the receiver when it
    runs; the registration, assigned after it was built, is not among
    them. *)
Lemma callback_set_registration (i : Metrics) r provider :
  callback (set_registration r i) provider = callback i provider.
Proof. by destruct i. Qed.

Lemma run_CleanUp {S} (h : Handler Call S) (s : S) (i : Metrics) r :
  registration i = Some r →
  run h (CleanUp (Some i)) s =
    (Go.Errorf "failed to unregister callback: "
       <$> (h _ (Registration_Unregister r) s).1,
     (h _ (Registration_Unregister r) s).2,
     [Ev (Registration_Unregister r) (h _ (Registration_Unregister r) s).1]).
Proof.
  intros Hr. unfold CleanUp. rewrite Hr. simpl.
  destruct (h _ (Registration_Unregister r) s) as [[e|] s1]; done.
Qed.

Lemma filter_instrument_absent (os : list (Observable * Z)) obsrv :
  obsrv ∉ os.*1 → filter (λ o, o.1 = obsrv) os = [].
Proof.
  induction os as [|[o w] os IH]; intros Hn; [done|].
  rewrite fmap_cons, not_elem_of_cons in Hn. destruct Hn as [Hne Hn].
  rewrite filter_cons_False; [by apply IH | simpl in *; by intros ->].
Qed.

Lemma observedOn_unique (os : list (Observable * Z)) obsrv v :
  NoDup os.*1 → (obsrv, v) ∈ os →
  (filter (λ o, o.1 = obsrv) os).*2 = [v].
Proof.
  induction os as [|[o w] os IH]; intros Hnd Hin.
  - by apply elem_of_nil in Hin.
  - rewrite fmap_cons in Hnd. apply NoDup_cons in Hnd as [Hfresh Hnd].
    apply elem_of_cons in Hin as [Heq | Hin].
    + injection Heq as -> ->. rewrite filter_cons_True by done.
      by rewrite filter_instrument_absent.
    + rewrite filter_cons_False; [by apply IH|].
      simpl. intros ->. apply Hfresh.
      apply list_elem_of_fmap. by exists (obsrv, v).
Qed.

Lemma callback_observations i provider ctx obs :
  wp (callback i provider ctx obs) (λ t r,
    r = None ∧
    ∃ pm, omap snapshot t = [(provider, pm)] ∧
      (omap observation t).*1 ≡ₚ registered i ∧
      ∀ obsrv stat, (obsrv, stat) ∈ engineStatistics i →
        (obsrv, stat pm) ∈ omap observation t).
Proof.
  walk_callback. split; [done|]. eexists. split; [done|]. split.
  - unfold registered. solve_Permutation.
  - intros obsrv stat Hin. unfold engineStatistics in Hin.
    decompose_list_elem_of; simplify_eq; set_solver.
Qed.

Lemma NewMetrics_registers_callback provider opts :
  wp (NewMetrics provider opts) (λ t r,
    ∀ ev f instruments x, ev ∈ t → registerCall ev = Some (f, instruments, x) →
      ∃ i, f = callback i provider ∧ instruments = registered i).
Proof.
  walk_NewMetrics; intros ev f instruments x Hin Hreg;
    decompose_list_elem_of; cbv [registerCall] in Hreg; simplify_eq; eauto.
Qed.

(** C3. Sampling is pulled, never pushed: whatever the collaborators
    answer, neither [NewMetrics] nor [CleanUp] calls the provider or
    observes an instrument; the only sampling is in the callback that
    [NewMetrics] hands to [RegisterCallback], which asks the provider it
    was given for one snapshot at each invocation. *)
Theorem sampling_is_pull_based provider opts :
  (∀ S (h : Handler Call S) s,
     Forall (λ ev, isSample ev = false) (trace h (NewMetrics provider opts) s))
  ∧ (∀ i S (h : Handler Call S) s,
     Forall (λ ev, isSample ev = false) (trace h (CleanUp i) s))
  ∧ (∀ S (h : Handler Call S) s ev f instruments x,
       ev ∈ trace h (NewMetrics provider opts) s →
       registerCall ev = Some (f, instruments, x) →
       ∀ ctx obs S' (hs : Handler SampleCall S') s',
         ∃ pm, omap snapshot (trace hs (f ctx obs) s') = [(provider, pm)]
               ∧ length (omap observation (trace hs (f ctx obs) s')) = 14%nat).
Proof.
  split; [|split].
  - intros S h s. apply (wp_run (NewMetrics provider opts)
      (λ t _, Forall (λ ev, isSample ev = false) t)).
    walk_NewMetrics; by repeat constructor.
  - intros [i|] S h s; [|by constructor].
    destruct (registration i) as [r|] eqn:Hr.
    + unfold trace. rewrite (run_CleanUp _ _ _ r Hr). by repeat constructor.
    + unfold trace, CleanUp. rewrite Hr. by constructor.
  - intros S h s ev f instruments x Hin Hreg ctx obs S' hs s'.
    destruct (wp_run _ _ h s (NewMetrics_registers_callback provider opts)
                _ _ _ _ Hin Hreg) as (i & -> & _).
    destruct (wp_run _ _ hs s' (callback_observations i provider ctx obs))
      as (_ & pm & Hpm & Hperm & _).
    exists pm. split; [done|].
    apply Permutation_length in Hperm. by rewrite length_fmap in Hperm.
Qed.

(** C6. The instruments [NewMetrics] names when it registers the callback
    are the fourteen asynchronous instruments the callback observes: in
    every run of the registered callback the observed instruments are the
    registered ones, each as often, so every observation is on an
    instrument the callback was registered for. *)
Theorem registered_instruments_are_the_observed_ones provider opts
    {S} (h : Handler Call S) (s : S) ev f instruments x :
  ev ∈ trace h (NewMetrics provider opts) s →
  registerCall ev = Some (f, instruments, x) →
  length instruments = 14%nat ∧
  ∀ ctx obs S' (hs : Handler SampleCall S') s',
    let observed := (omap observation (trace hs (f ctx obs) s')).*1 in
    observed ≡ₚ instruments ∧ ∀ obsrv, obsrv ∈ observed → obsrv ∈ instruments.
Proof.
  intros Hin Hreg.
  destruct (wp_run _ _ h s (NewMetrics_registers_callback provider opts)
              _ _ _ _ Hin Hreg) as (i & -> & ->).
  split; [done|]. intros ctx obs S' hs s' observed. subst observed.
  destruct (wp_run _ _ hs s' (callback_observations i provider ctx obs))
    as (_ & pm & _ & Hperm & _).
  split; [done|]. intros obsrv. by rewrite Hperm.
Qed.

Lemma NewMetrics_outcome provider opts :
  wp (NewMetrics provider opts) (λ t r,
    match r.1 with
    | Some i =>
        r.2 = None ∧
        (∃ cs, omap createdCounter t = zip counterNames cs ∧
               exportedCounters i = Some <$> cs) ∧
        (∃ reg, omap registered_by t = [reg] ∧ registration i = Some reg) ∧
        omap failedStep t = []
    | None =>
        ∃ ev st e, last t = Some ev ∧ failedStep ev = Some (st, e) ∧
          omap failedStep t = [(st, e)] ∧ st ∈ steps ∧
          r.2 = Some (Go.Errorf (failureMessage st) e) ∧
          omap registered_by t = []
    end).
Proof.
  walk_NewMetrics;
    first
    [ split; [done|]; split; [by eexists [_; _; _; _; _]|];
      split; [by eexists|]; done
    | do 3 eexists; split; [done|]; split; [done|]; split; [done|];
      split; [unfold steps; simpl; set_solver|]; done ].
Qed.

(** C2. When [NewMetrics] succeeds it has created exactly five
    synchronous Int64 counters, named aggregator.requests.total,
    aggregator.requests.failed, aggregator.events.total,
    aggregator.events.processed and aggregator.bytes.ingested, and they
    are the five exported fields of the result; the counters the
    Aggregator increments for events received, events merged and bytes
    processed are three of them. *)
Theorem NewMetrics_creates_the_five_counters provider opts
    {S} (h : Handler Call S) (s : S) :
  (result h (NewMetrics provider opts) s).2 = None →
  ∃ i cs,
    (result h (NewMetrics provider opts) s).1 = Some i ∧
    omap createdCounter (trace h (NewMetrics provider opts) s)
      = zip counterNames cs ∧
    length cs = 5%nat ∧
    exportedCounters i = Some <$> cs ∧
    ∀ name c, (name, c) ∈ aggregatorCounters i →
      ∃ c', c = Some c' ∧
        (name, c') ∈ omap createdCounter (trace h (NewMetrics provider opts) s).
Proof.
  intros Hok.
  pose proof (wp_run _ _ h s (NewMetrics_outcome provider opts)) as Hout.
  simpl in Hout.
  destruct ((result h (NewMetrics provider opts) s).1) as [i|] eqn:Hi.
  - destruct Hout as (_ & (cs & Hcs & Hexp) & _).
    exists i, cs. split; [done|]. split; [done|].
    assert (length cs = 5%nat) as Hlen.
    { apply (f_equal length) in Hexp. by rewrite length_fmap in Hexp. }
    split; [done|]. split; [done|].
    intros name c Hin. rewrite Hcs.
    destruct cs as [|c1 [|c2 [|c3 [|c4 [|c5 [|]]]]]]; try done.
    unfold exportedCounters in Hexp. unfold aggregatorCounters in Hin.
    simplify_eq/=. decompose_list_elem_of; simplify_eq;
      eexists; (split; [done|]); set_solver.
  - destruct Hout as (ev & st & e & _ & _ & _ & _ & Herr & _).
    rewrite Herr in Hok. done.
Qed.

(** C4. The registration handle [NewMetrics] obtained is the
    one kept in the [Metrics] it returns, and [CleanUp] on that [Metrics]
    calls [Unregister] on it, once, and returns an error exactly when
    [Unregister] does. *)
Theorem CleanUp_releases_the_registration provider opts
    {S} (h : Handler Call S) (s : S) (i : Metrics) :
  (result h (NewMetrics provider opts) s).1 = Some i →
  ∃ r, omap registered_by (trace h (NewMetrics provider opts) s) = [r] ∧
    registration i = Some r ∧
    ∀ S' (h' : Handler Call S') (s' : S'),
      let answer := (h' _ (Registration_Unregister r) s').1 in
      trace h' (CleanUp (Some i)) s' = [Ev (Registration_Unregister r) answer]
      ∧ (result h' (CleanUp (Some i)) s' ≠ None ↔ answer ≠ None).
Proof.
  intros Hi.
  pose proof (wp_run _ _ h s (NewMetrics_outcome provider opts)) as Hout.
  simpl in Hout. rewrite Hi in Hout.
  destruct Hout as (_ & _ & (r & Hr & Hreg) & _).
  exists r. split; [done|]. split; [done|].
  intros S' h' s' answer. subst answer. unfold trace, result.
  rewrite (run_CleanUp _ _ _ r Hreg). simpl. split; [done|].
  by destruct (h' _ (Registration_Unregister r) s').1.
Qed.

(** C5. [NewMetrics] fails as a whole: when any call to the meter, for
    one of the nineteen instruments or for the callback, answers with an
    error, [NewMetrics] returns a nil [*Metrics] and an error that wraps
    the meter's error behind a text that tells the failing step from
    every other one; that call is the last one made, and no registration
    has been made. *)
Theorem NewMetrics_fails_as_a_whole provider opts
    {S} (h : Handler Call S) (s : S) ev st e :
  ev ∈ trace h (NewMetrics provider opts) s →
  failedStep ev = Some (st, e) →
  let t := trace h (NewMetrics provider opts) s in
  ∃ err,
    result h (NewMetrics provider opts) s = (None, Some err) ∧
    Go.Unwrap err = Some e ∧
    Go.Error err = failureMessage st +:+ Go.Error e ∧
    st ∈ steps ∧ length steps = 20%nat ∧ NoDup (failureMessage <$> steps) ∧
    (failedStep <$> last t) = Some (Some (st, e)) ∧
    omap failedStep t = [(st, e)] ∧
    omap registered_by t = [].
Proof.
  intros Hin Hfail t. subst t.
  pose proof (wp_run _ _ h s (NewMetrics_outcome provider opts)) as Hout.
  simpl in Hout.
  assert ((st, e) ∈ omap failedStep (trace h (NewMetrics provider opts) s))
    as Hse by (apply list_elem_of_omap; eauto).
  destruct (result h (NewMetrics provider opts) s) as [[i|] r2] eqn:Hr;
    simpl in Hout.
  - destruct Hout as (_ & _ & _ & Hnone). rewrite Hnone in Hse.
    by apply elem_of_nil in Hse.
  - destruct Hout as (ev' & st' & e' & Hlast & Hev' & Hone & Hst & Herr & Hnoreg).
    rewrite Hone in Hse. apply list_elem_of_singleton in Hse.
    injection Hse as -> ->. subst r2.
    eexists. split; [done|]. split; [done|]. split; [done|]. split; [done|].
    split; [done|]. split; [apply (bool_decide_unpack _); by vm_compute|].
    rewrite Hlast. simpl. by rewrite Hev'.
Qed.

(** C7 (as amended). [CleanUp] on a nil receiver, or on a [Metrics] whose
    registration is nil, returns nil and calls nothing, however often it
    is called; on a [Metrics] with a registration every call of [CleanUp]
    calls [Unregister] on that registration, for [CleanUp] never clears
    it. *)
Theorem CleanUp_without_registration_is_a_no_op
    {S} (h : Handler Call S) (s : S) :
  run h (CleanUp None) s = (None, s, []) ∧
  (∀ i, registration i = None → run h (CleanUp (Some i)) s = (None, s, [])) ∧
  (∀ i r, registration i = Some r →
     let answer := (h _ (Registration_Unregister r) s).1 in
     trace h (CleanUp (Some i)) s = [Ev (Registration_Unregister r) answer] ∧
     result h (CleanUp (Some i)) s
     = Go.Errorf "failed to unregister callback: " <$> answer).
Proof.
  split; [done|]. split.
  - intros i Hi. unfold CleanUp. by rewrite Hi.
  - intros i r Hr answer. unfold trace, result.
    by rewrite (run_CleanUp _ _ _ r Hr).
Qed.

End TelemetryProperties.

(** ** More on the telemetry *)

Section TelemetryFurther.
Import metric telemetry.
Context {Ty : Types} {Pkg : Package}.

(** One case for each answer of the meter to [NewMetrics]. *)
Ltac each_answer :=
  unfold NewMetrics, registerCallback; simpl;
  repeat (intros [?|?]; simpl).

Lemma NewMetrics_length provider opts :
  wp (NewMetrics provider opts) (λ t r,
    (r.2 = None → length t = 20%nat) ∧
    omap attempted t `prefix_of` steps ∧
    length (omap attempted t) = length t ∧
    (r.2 = None → omap attempted t = steps)).
Proof.
  each_answer;
    (split; [done|]; split; [by eexists|]; split; [done|]; done).
Qed.


(** X1. [NewMetrics] returns either a [Metrics] or an error, never both
    and never neither, and the error is nil exactly when no call to the
    meter answered with an error. *)
Theorem NewMetrics_returns_a_value_or_an_error provider opts
    {S} (h : Handler Call S) (s : S) :
  let r := result h (NewMetrics provider opts) s in
  let t := trace h (NewMetrics provider opts) s in
  (is_Some r.1 ↔ r.2 = None) ∧
  (r.2 = None ↔ omap failedStep t = []).
Proof.
  intros r t. subst r t.
  pose proof (wp_run _ _ h s (NewMetrics_outcome provider opts)) as Hout.
  simpl in Hout.
  destruct (result h (NewMetrics provider opts) s) as [[i|] r2]; simpl in *.
  - destruct Hout as (-> & _ & _ & ->). split; [by split|done].
  - destruct Hout as (ev & st & e & _ & _ & -> & _ & -> & _).
    split; split; try done.
Qed.

(** X2. The calls [NewMetrics] makes are the twenty steps in the order of
    the source, or an initial part of them: it makes no other call, it
    makes them all when it succeeds, and it never goes on after a
    step failed. *)
Theorem NewMetrics_attempts_the_steps_in_order provider opts
    {S} (h : Handler Call S) (s : S) :
  let r := result h (NewMetrics provider opts) s in
  let t := trace h (NewMetrics provider opts) s in
  omap attempted t `prefix_of` steps ∧
  length (omap attempted t) = length t ∧
  (r.2 = None → omap attempted t = steps ∧ length t = 20%nat) ∧
  (∀ t1 ev t2, t = t1 ++ ev :: t2 → is_Some (failedStep ev) → t2 = []).
Proof.
  intros r t. subst r t.
  destruct (wp_run _ _ h s (NewMetrics_length provider opts))
    as (Hlen & Hpre & Hall & Hsteps).
  split; [done|]. split; [done|]. split; [by auto|].
  intros t1 ev t2 Ht [[st e] Hfail].
  pose proof (wp_run _ _ h s (NewMetrics_outcome provider opts)) as Hout.
  simpl in Hout. rewrite Ht in Hout.
  destruct ((result h (NewMetrics provider opts) s).1).
  - destruct Hout as (_ & _ & _ & Hnone).
    rewrite omap_app in Hnone. simpl in Hnone. rewrite Hfail in Hnone.
    by destruct (omap failedStep t1).
  - destruct Hout as (ev' & st' & e' & Hlast & Hev' & Hone & _).
    rewrite omap_app in Hone. simpl in Hone. rewrite Hfail in Hone.
    destruct t2 as [|ev2 t2] using rev_ind; [done|]. exfalso.
    rewrite omap_app in Hone. simpl in Hone.
    rewrite app_comm_cons, app_assoc, last_snoc in Hlast.
    injection Hlast as ->. rewrite Hev' in Hone.
    apply (f_equal length) in Hone.
    rewrite length_app in Hone. simpl in Hone.
    rewrite length_app in Hone. simpl in Hone. lia.
Qed.

Lemma NewMetrics_meter provider opts :
  wp (NewMetrics provider opts) (λ t r,
    Forall (λ ev, meterOf ev = Some (Meter (newConfig opts))) t).
Proof. each_answer; by repeat constructor. Qed.

(** X3. Every call [NewMetrics] makes is a call on the meter of the
    configuration built from its options: the nineteen instruments and
    the callback all go to that one meter, and nothing is
    unregistered. *)
Theorem NewMetrics_uses_the_configured_meter provider opts
    {S} (h : Handler Call S) (s : S) :
  Forall (λ ev, meterOf ev = Some (Meter (newConfig opts)) ∧
                isUnregister ev = false)
    (trace h (NewMetrics provider opts) s).
Proof.
  eapply Forall_impl;
    [apply (wp_run _ _ h s (NewMetrics_meter provider opts))|].
  intros [X c x] Hm. split; [done|]. by destruct c.
Qed.

Lemma NewMetrics_creations provider opts :
  wp (NewMetrics provider opts) (λ t r,
    NoDup (omap creation t).*1.*2 ∧
    ∀ ev k name options, ev ∈ t → creation ev = Some (k, name, options) →
      String.prefix (nameSpace k) name = true ∧
      ∃ d u, options = [WithDescription d; WithUnit u] ∧ d ≠ "" ∧
             (u = bytesUnit ∨ u = countUnit)).
Proof.
  each_answer;
    (split; [apply (bool_decide_unpack _); by vm_compute|]);
    intros ev k name options Hin Hc;
    decompose_list_elem_of; cbv [creation] in Hc; simplify_eq;
    (split; [done|]); do 2 eexists; (split; [done|]); (split; [done|]);
    auto.
Qed.

(** X4. Every instrument [NewMetrics] asks for comes with exactly a
    description, which is not empty, and a unit, which is "by" or "1". *)
Theorem NewMetrics_describes_every_instrument provider opts
    {S} (h : Handler Call S) (s : S) ev k name options :
  ev ∈ trace h (NewMetrics provider opts) s →
  creation ev = Some (k, name, options) →
  ∃ d u, options = [WithDescription d; WithUnit u] ∧ d ≠ "" ∧
         (u = bytesUnit ∨ u = countUnit).
Proof.
  intros Hin Hc.
  destruct (wp_run _ _ h s (NewMetrics_creations provider opts)) as [_ Hall].
  by destruct (Hall ev k name options Hin Hc).
Qed.

(** X5. [NewMetrics] never asks the meter twice for the same name, and
    the names follow the kind of the instrument: the synchronous counters
    are in "aggregator.", the asynchronous instruments in "pebble.". *)
Theorem NewMetrics_names_are_distinct provider opts
    {S} (h : Handler Call S) (s : S) :
  let t := trace h (NewMetrics provider opts) s in
  NoDup (omap creation t).*1.*2 ∧
  ∀ ev k name options, ev ∈ t → creation ev = Some (k, name, options) →
    String.prefix (nameSpace k) name = true.
Proof.
  intros t. subst t.
  destruct (wp_run _ _ h s (NewMetrics_creations provider opts))
    as [Hnd Hall].
  split; [done|]. intros ev k name options Hin Hc.
  by destruct (Hall ev k name options Hin Hc).
Qed.


Lemma NewMetrics_asynchronous provider opts :
  wp (NewMetrics provider opts) (λ t r,
    (∀ i, r.1 = Some i →
       ∃ hs, omap createdObservable t = zip asyncNames hs ∧
             length hs = 14%nat ∧ asyncFields i = Some <$> hs) ∧
    (∀ ev f instruments x,
       ev ∈ t → registerCall ev = Some (f, instruments, x) →
       ∃ i, f = callback i provider ∧ instruments = registered i ∧
            registered i ≡ₚ Some <$> (omap createdObservable t).*2)).
Proof.
  each_answer;
    (split;
     [intros ? ?; simplify_eq/=;
      by eexists [_; _; _; _; _; _; _; _; _; _; _; _; _; _]|]);
    intros ev f instruments x Hin Hreg;
    decompose_list_elem_of; cbv [registerCall] in Hreg; simplify_eq;
    eexists; (split; [done|]); (split; [done|]);
    unfold registered; simpl; solve_Permutation.
Qed.

Lemma NewMetrics_registration provider opts :
  wp (NewMetrics provider opts) (λ t r,
    (∀ i', r.1 = Some i' →
       ∃ f x, omap registerCall t = [(f, registered i', x)] ∧
              Go.value x = registration i') ∧
    (∀ ev f instruments x,
       ev ∈ t → registerCall ev = Some (f, instruments, x) →
       ∃ i hs, f = callback i provider ∧ instruments = registered i ∧
         omap createdObservable t = zip asyncNames hs ∧
         asyncFields i = Some <$> hs ∧
         ∀ i', r.1 = Some i' → engineStatistics i' = engineStatistics i)).
Proof.
  each_answer;
    (split; [intros ? ?; simplify_eq/=; by eexists _, _|]);
    intros ev f instruments x Hin Hreg;
    decompose_list_elem_of; cbv [registerCall] in Hreg; simplify_eq;
    eexists _, [_; _; _; _; _; _; _; _; _; _; _; _; _; _];
    (split; [done|]); (split; [done|]); (split; [done|]); (split; [done|]);
    intros ? ?; by simplify_eq/=.
Qed.

(** X6. When [NewMetrics] succeeds, each of the fourteen asynchronous
    fields of the result holds the instrument the meter made for the name
    of that field, none is nil, and [NewMetrics] has made exactly one
    [RegisterCallback] call, whose instruments are these fourteen. *)
Theorem NewMetrics_fills_the_asynchronous_fields provider opts
    {S} (h : Handler Call S) (s : S) (i : Metrics) :
  (result h (NewMetrics provider opts) s).1 = Some i →
  ∃ hs f instruments x,
    omap createdObservable (trace h (NewMetrics provider opts) s)
      = zip asyncNames hs ∧
    length hs = 14%nat ∧
    asyncFields i = Some <$> hs ∧
    omap registerCall (trace h (NewMetrics provider opts) s)
      = [(f, instruments, x)] ∧
    instruments ≡ₚ asyncFields i.
Proof.
  intros Hi.
  destruct (wp_run _ _ h s (NewMetrics_asynchronous provider opts))
    as [Hfields _].
  destruct (Hfields i Hi) as (hs & Hcreated & Hlen & Hhs).
  destruct (wp_run _ _ h s (NewMetrics_registration provider opts))
    as [Hreg _].
  destruct (Hreg i Hi) as (f & x & Hcall & _).
  exists hs, f, (registered i), x.
  split; [done|]. split; [done|]. split; [done|]. split; [done|].
  unfold registered, asyncFields. solve_Permutation.
Qed.

(** X7. [NewMetrics] and the callback together: when the meter has handed
    out fourteen different asynchronous instruments, every invocation of
    the callback [NewMetrics] registered observes each instrument it was
    registered for exactly once. *)
Theorem registered_callback_observes_each_instrument_once provider opts
    {S} (h : Handler Call S) (s : S) ev f instruments x :
  let t := trace h (NewMetrics provider opts) s in
  NoDup (omap createdObservable t).*2 →
  ev ∈ t → registerCall ev = Some (f, instruments, x) →
  ∀ ctx obs S' (hs : Handler SampleCall S') (s' : S') obsrv,
    obsrv ∈ instruments →
    length (observedOn obsrv (trace hs (f ctx obs) s')) = 1%nat.
Proof.
  intros t Hnd Hin Hreg ctx obs S' hs s' obsrv Hobsrv. subst t.
  destruct (wp_run _ _ h s (NewMetrics_asynchronous provider opts))
    as [_ Hcb].
  destruct (Hcb ev f instruments x Hin Hreg) as (i & -> & -> & Hperm).
  destruct (wp_run _ _ hs s' (callback_observations i provider ctx obs))
    as (_ & pm & _ & Hobs & _).
  assert (NoDup (registered i)) as Hnd'.
  { rewrite Hperm. by apply (NoDup_fmap_2 _). }
  rewrite <- Hobs in Hobsrv, Hnd'.
  apply list_elem_of_fmap in Hobsrv as [[o v] [-> Hv]].
  simpl. unfold observedOn. by rewrite (observedOn_unique _ o v Hnd' Hv).
Qed.

Lemma callback_calls i provider ctx obs :
  wp (callback i provider ctx obs) (λ t r,
    r = None ∧
    ∃ pm rest, t = Ev (Provider provider) pm :: rest ∧
      length rest = 14%nat ∧
      Forall (λ ev, ∃ obsrv v, ev = Ev (ObserveInt64 obs obsrv v) tt) rest ∧
      omap observation t
      ≡ₚ (λ e, (e.1, e.2 pm)) <$> (engineStatistics i ++ otherStatistics i) ∧
      ∀ obsrv raw, (obsrv, raw) ∈ unsignedStatistics i →
        (obsrv, Go.int64_of_uint64 (raw pm)) ∈ omap observation t).
Proof.
  unfold callback; simpl; intros pm; repeat (intros []; simpl).
  split; [done|]. eexists _, _. split; [done|]. split; [done|].
  split; [repeat constructor; by eexists _, _|]. split.
  - unfold engineStatistics, otherStatistics. simpl. solve_Permutation.
  - intros obsrv raw Hin. unfold unsignedStatistics in Hin.
    decompose_list_elem_of; simplify_eq; set_solver.
Qed.

(** C1. [NewMetrics], when it succeeds, has registered exactly one
    callback, for the asynchronous instruments of the [Metrics] it
    returns.  In every invocation of a callback [NewMetrics] registered,
    the provider given to [NewMetrics] is asked for one snapshot and
    fourteen observations are made; each engine statistic of the
    telemetry surface is observed on its own instrument, the one the
    meter made for the name of its field, with the value read from that
    snapshot; the values observed on an instrument are those of the
    statistics reported on it, each once; so, the instruments being
    distinct, each statistic is the one observation on its
    instrument. *)
Theorem callback_reports_each_statistic_once provider opts
    {S} (h : Handler Call S) (s : S) :
  let r := result h (NewMetrics provider opts) s in
  let t := trace h (NewMetrics provider opts) s in
  (∀ i', r.1 = Some i' →
     ∃ f x, omap registerCall t = [(f, registered i', x)] ∧
            Go.value x = registration i') ∧
  ∀ ev f instruments x,
    ev ∈ t → registerCall ev = Some (f, instruments, x) →
    ∃ i hs,
      instruments = registered i ∧
      omap createdObservable t = zip asyncNames hs ∧
      asyncFields i = Some <$> hs ∧
      (∀ i', r.1 = Some i' → engineStatistics i' = engineStatistics i) ∧
      ∀ ctx obs S' (hs' : Handler SampleCall S') (s' : S'),
        let t' := trace hs' (f ctx obs) s' in
        ∃ pm, omap snapshot t' = [(provider, pm)] ∧
          length (omap observation t') = 14%nat ∧
          (∀ obsrv stat, (obsrv, stat) ∈ engineStatistics i →
             (obsrv, stat pm) ∈ omap observation t') ∧
          (∀ obsrv,
             observedOn obsrv t'
             ≡ₚ (filter (λ e, e.1 = obsrv)
                   ((λ e, (e.1, e.2 pm))
                      <$> (engineStatistics i ++ otherStatistics i))).*2) ∧
          (NoDup instruments →
           ∀ obsrv stat, (obsrv, stat) ∈ engineStatistics i →
             observedOn obsrv t' = [stat pm]).
Proof.
  intros r t. subst r t.
  destruct (wp_run _ _ h s (NewMetrics_registration provider opts))
    as [Hone Hcb].
  split; [exact Hone|]. intros ev f instruments x Hin Hreg.
  destruct (Hcb ev f instruments x Hin Hreg)
    as (i & hs & -> & -> & Hcreated & Hfields & Hsame).
  exists i, hs. split; [done|]. split; [done|]. split; [done|].
  split; [done|]. intros ctx obs S' hs' s' t'. subst t'.
  destruct (wp_run _ _ hs' s' (callback_observations i provider ctx obs))
    as (_ & pm & Hpm & Hperm & Hmem).
  destruct (wp_run _ _ hs' s' (callback_calls i provider ctx obs))
    as (_ & pm' & rest & Ht & _ & _ & Htable & _).
  assert (pm' = pm) as ->.
  { rewrite Ht in Hpm. simpl in Hpm. by injection Hpm as ->. }
  exists pm. split; [done|]. split; [|split; [done|split]].
  - apply Permutation_length in Hperm. by rewrite length_fmap in Hperm.
  - intros obsrv. unfold observedOn. by rewrite Htable.
  - intros Hnd obsrv stat Hstat.
    apply observedOn_unique; [by rewrite Hperm | by apply Hmem].
Qed.

(** X8. The callback never reports an error.  It first asks the provider
    for the snapshot, once, and then makes its fourteen observations, all
    of them on the observer it was called with. *)
Theorem callback_never_fails (i : Metrics) provider ctx obs
    {S} (hs : Handler SampleCall S) (s : S) :
  result hs (callback i provider ctx obs) s = None ∧
  ∃ pm rest,
    trace hs (callback i provider ctx obs) s
      = Ev (Provider provider) pm :: rest ∧
    length rest = 14%nat ∧
    Forall (λ ev, ∃ obsrv v, ev = Ev (ObserveInt64 obs obsrv v) tt) rest.
Proof.
  destruct (wp_run _ _ hs s (callback_calls i provider ctx obs))
    as (Hr & pm & rest & Ht & Hlen & Hobs & _).
  split; [done|]. by exists pm, rest.
Qed.

(** X9. What an invocation of the callback observes is the twelve engine
    statistics of the telemetry surface, the memory of the table readers
    and the number of files marked for compaction, each once, read from
    the one snapshot, and nothing else. *)
Theorem callback_observes_nothing_else (i : Metrics) provider ctx obs
    {S} (hs : Handler SampleCall S) (s : S) :
  let t := trace hs (callback i provider ctx obs) s in
  ∃ pm, omap snapshot t = [(provider, pm)] ∧
    omap observation t
    ≡ₚ (λ e, (e.1, e.2 pm)) <$> (engineStatistics i ++ otherStatistics i).
Proof.
  intros t. subst t.
  destruct (wp_run _ _ hs s (callback_calls i provider ctx obs))
    as (_ & pm & rest & Ht & _ & Hobs & Hperm & _).
  exists pm. split; [|done]. rewrite Ht. simpl. f_equal.
  clear Ht Hperm. induction Hobs as [|ev rest (o & v & ->) _ IH]; [done|].
  done.
Qed.

Lemma int64_of_uint64_cases (x : Z) :
  0 ≤ x < 2 ^ 64 →
  Go.int64_of_uint64 x = if decide (x < 2 ^ 63) then x else x - 2 ^ 64.
Proof.
  intros Hx. unfold Go.int64_of_uint64. case_decide.
  - rewrite Z.mod_small by lia. lia.
  - rewrite <- (Z.mod_add _ (-1)) by lia.
    rewrite Z.mod_small by lia. lia.
Qed.

(** X10. A statistic that is an unsigned 64-bit number in the snapshot is
    reported as it stands when it is below 2^63; from 2^63 on the
    conversion to int64 wraps, and the callback reports the statistic
    less 2^64, a negative number. *)
Theorem callback_wraps_large_statistics (i : Metrics) provider ctx obs
    {S} (hs : Handler SampleCall S) (s : S) :
  let t := trace hs (callback i provider ctx obs) s in
  ∃ pm, omap snapshot t = [(provider, pm)] ∧
    ∀ obsrv raw, (obsrv, raw) ∈ unsignedStatistics i →
      0 ≤ raw pm < 2 ^ 64 →
      (obsrv, if decide (raw pm < 2 ^ 63) then raw pm else raw pm - 2 ^ 64)
        ∈ omap observation t ∧
      (2 ^ 63 ≤ raw pm → raw pm - 2 ^ 64 < 0).
Proof.
  intros t. subst t.
  destruct (wp_run _ _ hs s (callback_calls i provider ctx obs))
    as (_ & pm & rest & Ht & _ & Hobs & _ & Hraw).
  exists pm. split.
  - rewrite Ht. simpl. f_equal. clear Ht Hraw.
    induction Hobs as [|ev rest (o & v & ->) _ IH]; done.
  - intros obsrv raw Hin Hrange. split; [|lia].
    rewrite <- int64_of_uint64_cases by done. by apply Hraw.
Qed.

(** X11. [CleanUp], whatever its receiver, makes at most one call, and
    that call is an [Unregister]; an error it returns is the error of
    that [Unregister], wrapped behind "failed to unregister callback: ". *)
Theorem CleanUp_only_unregisters (i : option Metrics)
    {S} (h : Handler Call S) (s : S) :
  let t := trace h (CleanUp i) s in
  (length t ≤ 1)%nat ∧ Forall (λ ev, isUnregister ev = true) t ∧
  ∀ err, result h (CleanUp i) s = Some err →
    ∃ r e, t = [Ev (Registration_Unregister r) (Some e)] ∧
      (registration <$> i) = Some (Some r) ∧
      Go.Unwrap err = Some e ∧
      Go.Error err = "failed to unregister callback: " +:+ Go.Error e.
Proof.
  intros t. subst t.
  destruct i as [i|]; [|split; [simpl; lia|]; split; [by constructor|done]].
  destruct (registration i) as [r|] eqn:Hr.
  - unfold trace, result. rewrite (run_CleanUp _ _ _ r Hr). simpl.
    split; [lia|]. split; [by repeat constructor|].
    intros err Herr.
    destruct ((h _ (Registration_Unregister r) s).1) as [e|]; [|done].
    simpl in Herr. injection Herr as <-. exists r, e. by rewrite Hr.
  - unfold trace, result, CleanUp. rewrite Hr. simpl.
    split; [lia|]. split; [by constructor|done].
Qed.


(** X12. [CleanUp] on what a failed [NewMetrics] returned is safe: the
    pointer is nil, so [CleanUp] returns nil and calls nothing. *)
Theorem CleanUp_after_a_failed_NewMetrics provider opts
    {S} (h : Handler Call S) (s : S) {S'} (h' : Handler Call S') (s' : S') :
  (result h (NewMetrics provider opts) s).2 ≠ None →
  run h' (CleanUp (result h (NewMetrics provider opts) s).1) s'
  = (None, s', []).
Proof.
  intros Herr.
  pose proof (wp_run _ _ h s (NewMetrics_outcome provider opts)) as Hout.
  simpl in Hout.
  destruct ((result h (NewMetrics provider opts) s).1) as [i|]; [|done].
  by destruct Hout as (Hnil & _).
Qed.

End TelemetryFurther.

(** ** The merge algebra *)

Section MergeAlgebra.
Import aggregation.
Context (maxCount : N) (registers : nat).

Abbreviation MetricValue := (MetricValue registers).
Abbreviation Merge := (Merge maxCount registers).
Abbreviation addCount := (addCount maxCount).

Lemma addCount_comm a b : addCount a b = addCount b a.
Proof. unfold aggregation.addCount. lia. Qed.

Lemma addCount_assoc a b c :
  addCount (addCount a b) c = addCount a (addCount b c).
Proof. unfold aggregation.addCount. lia. Qed.

Lemma mergeHistogram_comm h1 h2 :
  mergeHistogram maxCount h1 h2 = mergeHistogram maxCount h2 h1.
Proof.
  apply map_eq. intros k. unfold mergeHistogram.
  rewrite !lookup_union_with.
  destruct (h1 !! k), (h2 !! k); simpl; by rewrite ?(addCount_comm n).
Qed.

Lemma mergeHistogram_assoc h1 h2 h3 :
  mergeHistogram maxCount (mergeHistogram maxCount h1 h2) h3
  = mergeHistogram maxCount h1 (mergeHistogram maxCount h2 h3).
Proof.
  apply map_eq. intros k. unfold mergeHistogram.
  rewrite !lookup_union_with.
  destruct (h1 !! k), (h2 !! k), (h3 !! k); simpl;
    by rewrite ?addCount_assoc.
Qed.

Lemma mergeSketch_comm (s1 s2 : vec N registers) :
  mergeSketch registers s1 s2 = mergeSketch registers s2 s1.
Proof.
  apply vec_eq. intros r. unfold mergeSketch.
  rewrite !vlookup_zip_with. lia.
Qed.

Lemma mergeSketch_assoc (s1 s2 s3 : vec N registers) :
  mergeSketch registers (mergeSketch registers s1 s2) s3
  = mergeSketch registers s1 (mergeSketch registers s2 s3).
Proof.
  apply vec_eq. intros r. unfold mergeSketch.
  rewrite !vlookup_zip_with. lia.
Qed.

Lemma Merge_comm (a b : MetricValue) : Merge a b = Merge b a.
Proof.
  unfold aggregation.Merge. f_equal;
    auto using addCount_comm, mergeHistogram_comm, mergeSketch_comm.
Qed.

Lemma Merge_assoc (a b c : MetricValue) :
  Merge (Merge a b) c = Merge a (Merge b c).
Proof.
  unfold aggregation.Merge. simpl. f_equal;
    auto using addCount_assoc, mergeHistogram_assoc, mergeSketch_assoc.
Qed.

Lemma applyAll_Merge (v a : MetricValue) l :
  applyAll maxCount registers (Merge v a) l
  = Merge v (applyAll maxCount registers a l).
Proof.
  revert a. induction l as [|b l IH]; intros a; simpl; [done|].
  by rewrite Merge_assoc, IH.
Qed.

Lemma applyAll_perm (v : MetricValue) l l' :
  l ≡ₚ l' → applyAll maxCount registers v l = applyAll maxCount registers v l'.
Proof.
  intros Hp. revert v.
  induction Hp as [|a l l' _ IH|a b l|l1 l2 l3 _ IH1 _ IH2]; intros v; simpl.
  - done.
  - apply IH.
  - f_equal. by rewrite !Merge_assoc, (Merge_comm b a).
  - by rewrite IH1.
Qed.

Lemma applyAll_groups (v : MetricValue) gs :
  applyAll maxCount registers v (concat (ungroup registers <$> gs))
  = applyAll maxCount registers v (group maxCount registers <$> gs).
Proof.
  revert v. induction gs as [|[a l] gs IH]; intros v; simpl; [done|].
  unfold applyAll in *. rewrite foldl_app, IH. f_equal.
  unfold group; simpl. apply applyAll_Merge.
Qed.

(** C8. The merge of metric values is associative and commutative, so
    the contributions of a finite sequence of events to one key give the
    same final value in whatever order and in whatever grouping they are
    applied. *)
Theorem Merge_any_order_any_grouping :
  (∀ a b c : MetricValue, Merge (Merge a b) c = Merge a (Merge b c)) ∧
  (∀ a b : MetricValue, Merge a b = Merge b a) ∧
  (∀ (v : MetricValue) l l', l ≡ₚ l' →
     applyAll maxCount registers v l = applyAll maxCount registers v l') ∧
  (∀ (v : MetricValue) gs,
     applyAll maxCount registers v (concat (ungroup registers <$> gs))
     = applyAll maxCount registers v (group maxCount registers <$> gs)).
Proof.
  auto using Merge_assoc, Merge_comm, applyAll_perm, applyAll_groups.
Qed.

End MergeAlgebra.

(** ** The harvest *)

Section HarvestProperties.
Import aggregation harvest.
Context (maxCount : N) (registers : nat) (grace : Z → Z).

Abbreviation State := (State registers).
Abbreviation Event := (Event registers).
Abbreviation step := (step maxCount registers grace).
Abbreviation exec := (exec maxCount registers grace).
Abbreviation closed := (closed grace).

Abbreviation settled := (settled registers grace).
Abbreviation acknowledged := (acknowledged registers).
Abbreviation reclaimedBy := (reclaimedBy registers).
Abbreviation working := (working registers).

Lemma phase_enter interval interval' p (st : State) :
  phase _ interval' (enter _ interval p st)
  = if decide (interval = interval') then p else phase _ interval' st.
Proof.
  unfold phase, enter; simpl. rewrite lookup_insert.
  by destruct (decide (interval = interval')).
Qed.

Lemma ScanWindow_MergeWrite (w : Window) (k : Key) (c : MetricValue registers)
    (s : gmap Key (MetricValue registers)) :
  window k ≠ w →
  ScanWindow registers w (MergeWrite maxCount registers k c s) = ScanWindow registers w s.
Proof.
  intros Hne. unfold ScanWindow, MergeWrite.
  by rewrite map_filter_insert_not' by (simpl; congruence).
Qed.


Lemma ScanWindow_DeleteWindow_same (w : Window) (s : gmap Key (MetricValue registers)) :
  ScanWindow registers w (DeleteWindow registers w s) = ∅.
Proof.
  apply map_empty_filter. intros k v Hk. simpl.
  apply map_lookup_filter_Some in Hk as [_ Hk]. done.
Qed.

Lemma ScanWindow_DeleteWindow_empty (w w' : Window) (s : gmap Key (MetricValue registers)) :
  ScanWindow registers w s = ∅ →
  ScanWindow registers w (DeleteWindow registers w' s) = ∅.
Proof.
  intros Hs. apply map_empty_filter. intros k v Hk.
  apply map_lookup_filter_Some in Hk as [Hk _].
  by apply (map_empty_filter_1 _ _ Hs k v).
Qed.

Lemma closed_later (w : Window) (t d : Z) : 0 ≤ d → closed w t → closed w (t + d).
Proof. unfold harvest.closed. lia. Qed.

Lemma step_settled (reclaimed : gset Window) (st st' : State) a ev :
  step st a = Some (st', ev) →
  settled reclaimed st →
  settled (reclaimed ∪ reclaimedBy ev) st' ∧
  ∀ w, w ∈ reclaimed → respects registers w ev.
Proof.
  intros Hstep [Hrec Hwork].
  destruct a as [d|k c|interval start|interval|interval|interval|interval
                |interval|interval]; simpl in Hstep.
  - case_decide; [|done]. simplify_eq/=.
    split; [|done]. split; simpl.
    + intros w Hw. rewrite union_empty_r_L in Hw. destruct (Hrec w Hw).
      split; [by apply closed_later | done].
    + intros interval start Hp. apply closed_later; [done|].
      by apply Hwork.
  - case_decide as Hclosed; simplify_eq/=.
    + split; [|done]. split; [|done]. intros w Hw.
      rewrite union_empty_r_L in Hw. auto.
    + assert (∀ w, w ∈ reclaimed → window k ≠ w) as Hne.
      { intros w Hw <-. by destruct (Hrec _ Hw). }
      split; [|done]. split; simpl.
      * intros w Hw. rewrite union_empty_r_L in Hw. destruct (Hrec w Hw).
        split; [done|]. by rewrite ScanWindow_MergeWrite by auto.
      * done.
  - destruct (phase registers interval st) as [|s|s es|s rs|s]
      eqn:Hp; try done.
    case_decide; simplify_eq/=. split; [|done]. split; simpl.
    + intros w Hw. rewrite union_empty_r_L in Hw. auto.
    + intros interval' start'. rewrite phase_enter.
      case_decide; simplify_eq/=; [by intros [= <-] | apply Hwork].
  - destruct (phase registers interval st) as [|start|start es|start rs|start]
      eqn:Hp; try done.
    simplify_eq/=. split.
    + split; simpl.
      * intros w Hw. rewrite union_empty_r_L in Hw. auto.
      * intros interval' start'. rewrite phase_enter.
        case_decide; simplify_eq/=; [|apply Hwork].
        intros [= <-]. apply Hwork. by rewrite Hp.
    + intros w Hw ->. by destruct (Hrec _ Hw).
  - destruct (phase registers interval st) as [|start|start es|start rs|start]
      eqn:Hp; try done.
    simplify_eq/=. split; [|done]. split; simpl.
    + intros w Hw. rewrite union_empty_r_L in Hw. auto.
    + intros interval' start'. rewrite phase_enter.
      case_decide; simplify_eq/=; [|apply Hwork].
      intros [= <-]. apply Hwork. by rewrite Hp.
  - destruct (phase registers interval st) as [|start|start es|start rs|start]
      eqn:Hp; try done.
    simplify_eq/=. split; [|done]. split; simpl.
    + intros w Hw. rewrite union_empty_r_L in Hw. auto.
    + intros interval' start'. rewrite phase_enter.
      case_decide; simplify_eq/=; [|apply Hwork].
      intros [= <-]. apply Hwork. by rewrite Hp.
  - destruct (phase registers interval st) as [|start|start es|start rs|start]
      eqn:Hp; try done.
    simplify_eq/=. split; [|done]. split; simpl.
    + intros w Hw. rewrite union_empty_r_L in Hw. auto.
    + intros interval' start'. rewrite phase_enter.
      case_decide; simplify_eq/=; [done|apply Hwork].
  - destruct (phase registers interval st) as [|start|start es|start rs|start]
      eqn:Hp; try done.
    simplify_eq/=.
    assert (closed (interval, start) (now _ st)) as Hclosed
      by (apply Hwork; by rewrite Hp).
    split; [|done]. split; simpl.
    + intros w [Hw | ->%elem_of_singleton]%elem_of_union.
      * destruct (Hrec w Hw).
        split; [done | by apply ScanWindow_DeleteWindow_empty].
      * split; [done | apply ScanWindow_DeleteWindow_same].
    + intros interval' start'.
      change (working (phase registers interval'
                         (enter registers interval (Idle registers) st))
              = Some start' → closed (interval', start') (now _ st)).
      rewrite phase_enter.
      case_decide; simplify_eq/=; [done|apply Hwork].
  - destruct (phase registers interval st) as [|start|start es|start rs|start]
      eqn:Hp; try done;
      simplify_eq/=; (split; [|done]); (split; simpl;
        [ intros w Hw; rewrite union_empty_r_L in Hw; auto
        | intros interval' start'; rewrite phase_enter;
          case_decide; simplify_eq/=; [done|apply Hwork] ]).
Qed.


Lemma eventsOf_snoc interval (pre : list Event) (ev : Event) :
  eventsOf registers interval (pre ++ [ev])
  = eventsOf registers interval pre
    ++ (if decide (harvesterOf registers ev = Some interval) then [ev] else []).
Proof.
  unfold eventsOf. by rewrite filter_app.
Qed.

Lemma acknowledged_enter (pre : list Event) (st : State) interval p ev :
  harvesterOf registers ev = Some interval →
  latest registers interval p (eventsOf registers interval pre ++ [ev]) →
  acknowledged pre st →
  acknowledged (pre ++ [ev]) (enter _ interval p st).
Proof.
  intros Hev Hp Hack interval'. rewrite phase_enter, eventsOf_snoc.
  case_decide as Hi; simplify_eq/=.
  - by rewrite decide_True by done.
  - rewrite decide_False by congruence. rewrite app_nil_r. by apply Hack.
Qed.

Lemma acknowledged_elsewhere (pre : list Event) (st st' : State) ev :
  harvesterOf registers ev = None →
  harvesters _ st' = harvesters _ st →
  acknowledged pre st → acknowledged (pre ++ [ev]) st'.
Proof.
  intros Hev Hsame Hack interval. unfold phase. rewrite Hsame.
  rewrite eventsOf_snoc, decide_False by congruence.
  rewrite app_nil_r. apply Hack.
Qed.

Lemma step_acknowledged (pre : list Event) (st st' : State) a ev :
  step st a = Some (st', ev) →
  acknowledged pre st →
  acknowledged (pre ++ [ev]) st' ∧
  ∀ w, ev = DeleteWindowCalled _ w →
    ∃ before records,
      eventsOf registers w.1 pre
      = before ++ [Published _ w records; Acknowledged _ w].
Proof.
  intros Hstep Hack.
  destruct a as [d|k c|interval start|interval|interval|interval|interval
                |interval|interval]; simpl in Hstep.
  - case_decide; [|done]. simplify_eq/=. split; [|done].
    by eapply acknowledged_elsewhere; [| |exact Hack].
  - case_decide; simplify_eq/=; (split; [|done]);
      by eapply acknowledged_elsewhere; [| |exact Hack].
  - destruct (phase registers interval st) as [|s|s es|s rs|s] eqn:Hp;
      try done.
    case_decide; simplify_eq/=. split; [|done].
    by apply acknowledged_enter.
  - destruct (phase registers interval st) as [|start|start es|start rs|start]
      eqn:Hp; try done.
    simplify_eq/=. split; [|done]. by apply acknowledged_enter.
  - destruct (phase registers interval st) as [|start|start es|start rs|start]
      eqn:Hp; try done.
    simplify_eq/=. split; [|done]. apply acknowledged_enter; [done| |done].
    simpl. apply last_snoc.
  - destruct (phase registers interval st) as [|start|start es|start rs|start]
      eqn:Hp; try done.
    simplify_eq/=. split; [|done]. apply acknowledged_enter; [done| |done].
    specialize (Hack interval). rewrite Hp in Hack. simpl in Hack.
    apply last_Some in Hack as [before ->].
    exists before, rs. by rewrite <- app_assoc.
  - destruct (phase registers interval st) as [|start|start es|start rs|start]
      eqn:Hp; try done.
    simplify_eq/=. split; [|done]. by apply acknowledged_enter.
  - destruct (phase registers interval st) as [|start|start es|start rs|start]
      eqn:Hp; try done.
    simplify_eq/=. split.
    + by apply (acknowledged_enter pre st interval (Idle _)).
    + intros w [= <-]. specialize (Hack interval). by rewrite Hp in Hack.
  - destruct (phase registers interval st) as [|start|start es|start rs|start]
      eqn:Hp; try done; simplify_eq/=; (split; [|done]);
      by apply acknowledged_enter.
Qed.

Lemma settled_subseteq (reclaimed reclaimed' : gset Window) (st : State) :
  reclaimed ⊆ reclaimed' → settled reclaimed' st → settled reclaimed st.
Proof. intros Hsub [Hrec Hwork]. split; [|done]. intros w Hw. auto. Qed.

Lemma exec_safe actions : ∀ (st st' : State) (pre t : list Event)
    (reclaimed : gset Window),
  exec st actions = Some (st', t) →
  acknowledged pre st → settled reclaimed st →
  settled reclaimed st' ∧
  Forall (λ ev, ∀ w, w ∈ reclaimed → respects registers w ev) t ∧
  ∀ t1 t2 w, t = t1 ++ DeleteWindowCalled _ w :: t2 →
    (∃ before records,
       eventsOf registers w.1 (pre ++ t1)
       = before ++ [Published _ w records; Acknowledged _ w]) ∧
    Forall (respects registers w) t2 ∧
    ScanWindow registers w (store _ st') = ∅.
Proof.
  induction actions as [|a actions IH];
    intros st st' pre t reclaimed Hexec Hack Hset; simpl in Hexec.
  - simplify_eq. split; [done|]. split; [done|]. intros [|??] ???; done.
  - destruct (step st a) as [[st1 ev]|] eqn:Hstep; [|done]. simpl in Hexec.
    destruct (exec st1 actions) as [[st2 t']|] eqn:Hrest; [|done].
    simplify_eq/=.
    destruct (step_acknowledged pre _ _ _ _ Hstep Hack) as [Hack1 Hdel].
    destruct (step_settled reclaimed _ _ _ _ Hstep Hset) as [Hset1 Hresp].
    destruct (IH _ _ _ _ _ Hrest Hack1 Hset1) as (Hset2 & Hall & Hsplit).
    split; [|split].
    + eapply settled_subseteq; [|exact Hset2]. apply union_subseteq_l.
    + constructor; [done|]. eapply Forall_impl; [exact Hall|].
      intros ev' Hev' w Hw. apply Hev'. by apply elem_of_union_l.
    + intros [|ev1 t1] t2 w Ht; simplify_eq/=.
      * rewrite app_nil_r. split; [by apply Hdel|].
        split.
        -- eapply Forall_impl; [exact Hall|].
           intros ev' Hev'. apply Hev'.
           by apply elem_of_union_r, elem_of_singleton.
        -- apply Hset2. by apply elem_of_union_r, elem_of_singleton.
      * destruct (Hsplit t1 t2 w eq_refl) as (Hlast & Hrespects & Hempty).
        by rewrite <- app_assoc in Hlast.
Qed.

(** C10. In every execution that starts with the harvesters idle,
    [DeleteWindow] is called for a window only when the latest events of
    the harvester of its interval are the publication of the records of
    that window and the acknowledgement of the sink; and once the window
    is reclaimed, no later [ScanWindow] finds an entry in its range, no
    write lands in it, and its range is empty at the end. *)
Theorem reclaim_only_after_acknowledgement
    clock entries actions (st : State) (t : list Event) :
  exec (initial registers clock entries) actions = Some (st, t) →
  ∀ t1 t2 w, t = t1 ++ DeleteWindowCalled _ w :: t2 →
    (∃ before records,
       eventsOf registers w.1 t1
       = before ++ [Published _ w records; Acknowledged _ w]) ∧
    Forall (respects registers w) t2 ∧
    ScanWindow registers w (store _ st) = ∅.
Proof.
  intros Hexec t1 t2 w Ht.
  apply (exec_safe actions _ _ [] t ∅ Hexec); [| |done].
  - intros interval. unfold phase, initial. simpl.
    by rewrite lookup_empty.
  - split; [by intros w' Hw'%not_elem_of_empty|]. intros interval start. unfold phase, initial. simpl.
    by rewrite lookup_empty.
Qed.

End HarvestProperties.

(** ** The properties at work on the recording meter *)

Section OnTheRecordingMeter.
Import metric telemetry Recording.

Example int64_of_uint64_wraps :
  Go.int64_of_uint64 (2 ^ 64 - 1) = -1 ∧ Go.int64_of_uint64 (2 ^ 63) = - 2 ^ 63
  ∧ Go.int64_of_uint64 4096 = 4096.
Proof. by vm_compute. Qed.

Example NewMetrics_on_the_recording_meter :
  result collaborators (NewMetrics tt []) world = (Some metrics, None) ∧
  length (trace collaborators (NewMetrics tt []) world) = 20%nat.
Proof. by vm_compute. Qed.

Example callback_on_the_recording_meter :
  omap observation (trace sampler (callback metrics tt tt tt) world)
  = [ (ofGauge (Some "pebble.memtable.total-size"), 2 ^ 20);
      (ofGauge (Some "pebble.disk.usage"), 2 ^ 30);
      (ofCounter (Some "pebble.flushes"), 9);
      (ofCounter (Some "pebble.flushed-bytes"), 1000);
      (ofCounter (Some "pebble.compactions"), 5);
      (ofGauge (Some "pebble.estimated-pending-compaction"), 4096);
      (ofGauge (Some "pebble.marked-for-compaction-files"), 2);
      (ofGauge (Some "pebble.table-readers-mem-estimate"), 512);
      (ofGauge (Some "pebble.keys.tombstone.count"), 17);
      (ofGauge (Some "pebble.num-sstables"), 60);
      (ofCounter (Some "pebble.ingested-bytes"), 42);
      (ofCounter (Some "pebble.compacted-bytes-read"), 18);
      (ofCounter (Some "pebble.compacted-bytes-written"), 600);
      (ofGauge (Some "pebble.read-amplification"), 6) ].
Proof. by vm_compute. Qed.

Lemma NewMetrics_creates_the_five_counters_witness :
  (result collaborators (NewMetrics tt []) world).2 = None ∧
  omap createdCounter (trace collaborators (NewMetrics tt []) world)
    = zip counterNames counterNames.
Proof.
  split; [reflexivity|].
  destruct (NewMetrics_creates_the_five_counters (Pkg := package)
              tt [] collaborators world eq_refl)
    as (i & cs & Hi & Hcs & _).
  vm_compute. reflexivity.
Defined.

Lemma sampling_is_pull_based_witness :
  Forall (λ ev, isSample ev = false)
    (trace collaborators (NewMetrics tt []) world).
Proof.
  apply (proj1 (sampling_is_pull_based (Pkg := package) tt [])).
Defined.

Lemma CleanUp_releases_the_registration_witness :
  (result collaborators (NewMetrics tt []) world).1 = Some metrics ∧
  trace collaborators (CleanUp (Some metrics)) world
    = [Ev (Registration_Unregister 0%nat) None].
Proof.
  split; [reflexivity|].
  destruct (CleanUp_releases_the_registration (Pkg := package)
              tt [] collaborators world metrics eq_refl)
    as (r & Hr & Hreg & Hclean).
  injection Hreg as <-.
  apply (Hclean World collaborators world).
Defined.

(** The meter refuses the third asynchronous instrument. *)
Lemma NewMetrics_fails_as_a_whole_witness :
  let w := mkWorld ["pebble.compactions"] false 0 [] someStats [] in
  let e := Go.errorString "cannot create pebble.compactions" in
  ∃ ev, ev ∈ trace collaborators (NewMetrics tt []) w ∧
    failedStep ev = Some (CreateInstrument "pebble.compactions", e) ∧
    result collaborators (NewMetrics tt []) w
      = (None,
         Some (Go.wrapError
                 "failed to create metric for compactions: cannot create pebble.compactions"
                 e)).
Proof.
  intros w e.
  assert (∃ ev, last (trace collaborators (NewMetrics tt []) w) = Some ev ∧
            failedStep ev = Some (CreateInstrument "pebble.compactions", e))
    as (ev & Hlast & Hfail) by (eexists; split; reflexivity).
  exists ev.
  assert (ev ∈ trace collaborators (NewMetrics tt []) w) as Hin.
  { apply last_Some in Hlast as [t' ->]. set_solver. }
  split; [exact Hin|]. split; [exact Hfail|].
  destruct (NewMetrics_fails_as_a_whole (Pkg := package)
              tt [] collaborators w ev _ _ Hin Hfail)
    as (err & Hres & Hunwrap & Hmsg & _).
  rewrite Hres. destruct err as [|msg err]; [discriminate|].
  simpl in Hunwrap, Hmsg. injection Hunwrap as ->. by rewrite Hmsg.
Defined.

Lemma registered_instruments_are_the_observed_ones_witness :
  ∃ ev f x,
    ev ∈ trace collaborators (NewMetrics tt []) world ∧
    registerCall ev = Some (f, registered metrics, x) ∧
    (omap observation (trace sampler (f tt tt) world)).*1
      ≡ₚ registered metrics.
Proof.
  assert (∃ ev f x,
            last (trace collaborators (NewMetrics tt []) world) = Some ev ∧
            registerCall ev = Some (f, registered metrics, x))
    as (ev & f & x & Hlast & Hreg) by (do 3 eexists; split; reflexivity).
  exists ev, f, x.
  assert (ev ∈ trace collaborators (NewMetrics tt []) world) as Hin.
  { apply last_Some in Hlast as [t' ->]. set_solver. }
  split; [exact Hin|]. split; [exact Hreg|].
  apply (registered_instruments_are_the_observed_ones (Pkg := package)
           tt [] collaborators world ev f _ x Hin Hreg).
Defined.

Lemma CleanUp_without_registration_is_a_no_op_witness :
  run collaborators (CleanUp (Some zeroMetrics)) world = (None, world, []).
Proof.
  apply (proj1 (proj2 (CleanUp_without_registration_is_a_no_op
                         (Pkg := package) collaborators world))).
  reflexivity.
Defined.

(** [NewMetrics] succeeds, a first [CleanUp] unregisters the callback and
    returns nil; it leaves the registration in place, so a second
    [CleanUp] calls [Unregister] on it again, and returns the error this
    registration then gives. *)
Lemma CleanUp_twice_unregisters_twice :
  let w1 := final collaborators (NewMetrics tt []) world in
  let w2 := final collaborators (CleanUp (Some metrics)) w1 in
  result collaborators (NewMetrics tt []) world = (Some metrics, None) ∧
  registration metrics = Some 0%nat ∧
  run collaborators (CleanUp (Some metrics)) w1
    = (None, w2, [Ev (Registration_Unregister 0%nat) None]) ∧
  run collaborators (CleanUp (Some metrics)) w2
    = (Some (Go.Errorf "failed to unregister callback: "
               (Go.errorString "already unregistered")),
       w2,
       [Ev (Registration_Unregister 0%nat)
           (Some (Go.errorString "already unregistered"))]).
Proof. repeat split. Qed.

End OnTheRecordingMeter.

(** ** The merge algebra on values *)

Section OnValues.
Import aggregation.

Example Merge_saturates :
  eventCount 4 (Merge maxU64 4 (someValue (2 ^ 64 - 2)) (someValue 5))
  = maxU64.
Proof. by vm_compute. Qed.

Lemma Merge_any_order_any_grouping_witness :
  applyAll maxU64 4 (someValue 1) [someValue 2; someValue 3]
  = applyAll maxU64 4 (someValue 1) [someValue 3; someValue 2].
Proof.
  apply (proj1 (proj2 (proj2 (Merge_any_order_any_grouping maxU64 4)))).
  apply perm_swap.
Defined.

End OnValues.

(** ** The harvest of a run *)

Section OnARun.
Import aggregation harvest.

Lemma reclaim_only_after_acknowledgement_witness :
  ∃ st t1 t2,
    exec maxU64 4 (λ _, 30) (initial 4 0 ∅) (sampleRun 4 (someValue 1))
      = Some (st, t1 ++ DeleteWindowCalled 4 (60, 0) :: t2) ∧
    t2 = [ TooLate 4 sampleKey; TimerFired 4 (60, 0);
           ScanWindowCalled 4 (60, 0) ∅ ] ∧
    (∃ before records,
       eventsOf 4 60 t1
       = before ++ [Published 4 (60, 0) records; Acknowledged 4 (60, 0)]) ∧
    Forall (respects 4 (60, 0)) t2.
Proof.
  assert (∃ st t1 t2,
    exec maxU64 4 (λ _, 30) (initial 4 0 ∅) (sampleRun 4 (someValue 1))
      = Some (st, t1 ++ DeleteWindowCalled 4 (60, 0) :: t2) ∧
    t2 = [ TooLate 4 sampleKey; TimerFired 4 (60, 0);
           ScanWindowCalled 4 (60, 0) ∅ ]) as (st & t1 & t2 & Hexec & Ht2).
  { eexists _, [_; _; _; _; _; _], _. split.
    - vm_compute. reflexivity.
    - reflexivity. }
  exists st, t1, t2. split; [exact Hexec|]. split; [exact Ht2|].
  destruct (reclaim_only_after_acknowledgement maxU64 4 (λ _, 30) 0 ∅
              _ st _ Hexec _ _ _ eq_refl) as (Hack & Hresp & _).
  done.
Defined.

End OnARun.

(** ** More on the recording meter *)

Section FurtherOnTheRecordingMeter.
Import metric telemetry Recording.

Lemma NewMetrics_attempts_the_steps_in_order_witness :
  (result collaborators (NewMetrics tt []) world).2 = None ∧
  omap attempted (trace collaborators (NewMetrics tt []) world) = steps.
Proof.
  split; [reflexivity|].
  apply (proj1 (proj2 (proj2 (NewMetrics_attempts_the_steps_in_order
                                (Pkg := package) tt [] collaborators world)))).
  reflexivity.
Defined.

Lemma NewMetrics_describes_every_instrument_witness :
  ∃ ev, ev ∈ trace collaborators (NewMetrics tt []) world ∧
    creation ev
    = Some (ObservableGauge, "pebble.disk.usage",
            [ WithDescription
                "Total disk usage by pebble, including live and obsolete files";
              WithUnit bytesUnit ]) ∧
    ∃ d u,
      [ WithDescription
          "Total disk usage by pebble, including live and obsolete files";
        WithUnit bytesUnit ] = [WithDescription d; WithUnit u] ∧
      d ≠ "" ∧ (u = bytesUnit ∨ u = countUnit).
Proof.
  assert (∃ ev, trace collaborators (NewMetrics tt []) world !! 12%nat
                = Some ev ∧
            creation ev
            = Some (ObservableGauge, "pebble.disk.usage",
                    [ WithDescription
                        "Total disk usage by pebble, including live and obsolete files";
                      WithUnit bytesUnit ]))
    as (ev & Hev & Hc) by (eexists; split; reflexivity).
  exists ev.
  assert (ev ∈ trace collaborators (NewMetrics tt []) world) as Hin
    by (by eapply list_elem_of_lookup_2).
  split; [exact Hin|]. split; [exact Hc|].
  apply (NewMetrics_describes_every_instrument (Pkg := package)
           tt [] collaborators world ev _ _ _ Hin Hc).
Defined.

Lemma NewMetrics_names_are_distinct_witness :
  ∃ ev, ev ∈ trace collaborators (NewMetrics tt []) world ∧
    creation ev
    = Some (SyncCounter, "aggregator.requests.total",
            [ WithDescription "Total number of aggregation requests";
              WithUnit countUnit ]) ∧
    String.prefix "aggregator." "aggregator.requests.total" = true.
Proof.
  assert (∃ ev, trace collaborators (NewMetrics tt []) world !! 0%nat
                = Some ev ∧
            creation ev
            = Some (SyncCounter, "aggregator.requests.total",
                    [ WithDescription "Total number of aggregation requests";
                      WithUnit countUnit ]))
    as (ev & Hev & Hc) by (eexists; split; reflexivity).
  exists ev.
  assert (ev ∈ trace collaborators (NewMetrics tt []) world) as Hin
    by (by eapply list_elem_of_lookup_2).
  split; [exact Hin|]. split; [exact Hc|].
  apply (proj2 (NewMetrics_names_are_distinct (Pkg := package)
                  tt [] collaborators world) ev _ _ _ Hin Hc).
Defined.

Lemma NewMetrics_fills_the_asynchronous_fields_witness :
  (result collaborators (NewMetrics tt []) world).1 = Some metrics ∧
  ∃ hs f instruments x,
    omap createdObservable (trace collaborators (NewMetrics tt []) world)
      = zip asyncNames hs ∧
    length hs = 14%nat ∧
    asyncFields metrics = Some <$> hs ∧
    omap registerCall (trace collaborators (NewMetrics tt []) world)
      = [(f, instruments, x)] ∧
    instruments ≡ₚ asyncFields metrics.
Proof.
  split; [reflexivity|].
  apply (NewMetrics_fills_the_asynchronous_fields (Pkg := package)
           tt [] collaborators world metrics).
  reflexivity.
Defined.

(** The callback [NewMetrics] registers on the recording meter reports
    the bytes flushed once, read from the first level of the snapshot. *)
Lemma callback_reports_each_statistic_once_witness :
  let ev := Ev (Meter_RegisterCallback "aggregators" (callback metrics tt)
                  (registered metrics))
               (inl 0%nat) in
  ev ∈ trace collaborators (NewMetrics tt []) world ∧
  NoDup (registered metrics) ∧
  observedOn (ofCounter (Some "pebble.flushed-bytes"))
    (trace sampler (callback metrics tt tt tt) world) = [1000].
Proof.
  intros ev.
  assert (ev ∈ trace collaborators (NewMetrics tt []) world) as Hin
    by (by apply (list_elem_of_lookup_2 _ 19%nat)).
  assert (NoDup (registered metrics)) as Hnd
    by (apply (bool_decide_unpack _); vm_compute; exact I).
  split; [exact Hin|]. split; [exact Hnd|].
  destruct (proj2 (callback_reports_each_statistic_once (Pkg := package)
                     tt [] collaborators world)
              ev _ _ _ Hin eq_refl)
    as (i & hs & Hi & _ & _ & Hsame & Hrun).
  destruct (Hrun tt tt World sampler world) as (pm & Hpm & _ & _ & _ & Hone).
  rewrite <- (Hsame metrics eq_refl) in Hone.
  vm_compute in Hpm. injection Hpm as <-.
  rewrite (Hone Hnd (@ofCounter types (Some "pebble.flushed-bytes"))
             (λ pm, Go.int64_of_uint64
                      (pebble.BytesFlushed (pebble.Levels pm !!! 0%fin)))).
  - reflexivity.
  - by apply (list_elem_of_lookup_2 _ 1%nat).
Defined.

Lemma registered_callback_observes_each_instrument_once_witness :
  ∃ ev f x,
    NoDup (omap createdObservable
             (trace collaborators (NewMetrics tt []) world)).*2 ∧
    ev ∈ trace collaborators (NewMetrics tt []) world ∧
    registerCall ev = Some (f, registered metrics, x) ∧
    ofGauge (Some "pebble.num-sstables") ∈ registered metrics ∧
    length (observedOn (ofGauge (Some "pebble.num-sstables"))
              (trace sampler (f tt tt) world)) = 1%nat.
Proof.
  assert (∃ ev f x,
            trace collaborators (NewMetrics tt []) world !! 19%nat = Some ev ∧
            registerCall ev = Some (f, registered metrics, x))
    as (ev & f & x & Hev & Hreg) by (do 3 eexists; split; reflexivity).
  exists ev, f, x.
  assert (NoDup (omap createdObservable
                   (trace collaborators (NewMetrics tt []) world)).*2) as Hnd
    by (apply (bool_decide_unpack _); vm_compute; exact I).
  assert (ev ∈ trace collaborators (NewMetrics tt []) world) as Hin
    by (by eapply list_elem_of_lookup_2).
  assert (@ofGauge types (Some "pebble.num-sstables") ∈ registered metrics)
    as Hobsrv by (by apply (list_elem_of_lookup_2 _ 9%nat)).
  split; [exact Hnd|]. split; [exact Hin|]. split; [exact Hreg|].
  split; [exact Hobsrv|].
  apply (registered_callback_observes_each_instrument_once (Pkg := package)
           tt [] collaborators world ev f _ x Hnd Hin Hreg
           tt tt World sampler world _ Hobsrv).
Defined.

(** A memtable of 2^64 - 1 bytes is reported as -1. *)
Lemma callback_wraps_large_statistics_witness :
  let pm := pebble.mkMetrics 5 4096 2 9 17
              [# level 1; level 2; level 0; level 0; level 0; level 0; level 3]
              (2 ^ 64 - 1) 512 (2 ^ 30) (level 6) in
  let w := mkWorld [] false 0 [] pm [] in
  (ofGauge (Some "pebble.memtable.total-size"), -1)
    ∈ omap observation (trace sampler (callback metrics tt tt tt) w).
Proof.
  intros pm w.
  destruct (callback_wraps_large_statistics (Pkg := package)
              metrics tt tt tt sampler w) as (pm' & Hpm & Hraw).
  vm_compute in Hpm. injection Hpm as <-.
  apply (Hraw (@ofGauge types (Some "pebble.memtable.total-size"))
           pebble.MemTable_Size).
  - by apply (list_elem_of_lookup_2 _ 0%nat).
  - simpl. lia.
Defined.

Lemma CleanUp_only_unregisters_witness :
  let w := mkWorld [] false 1 [0%nat] someStats [] in
  let e := Go.errorString "already unregistered" in
  result collaborators (CleanUp (Some metrics)) w
    = Some (Go.Errorf "failed to unregister callback: " e) ∧
  trace collaborators (CleanUp (Some metrics)) w
    = [Ev (Registration_Unregister 0%nat) (Some e)].
Proof.
  intros w e. split; [reflexivity|].
  destruct (proj2 (proj2 (CleanUp_only_unregisters (Pkg := package)
                            (Some metrics) collaborators w)) _ eq_refl)
    as (r & e' & Ht & Hr & Hunwrap & _).
  injection Hr as <-. injection Hunwrap as <-. exact Ht.
Defined.

Lemma CleanUp_after_a_failed_NewMetrics_witness :
  let w := mkWorld [] true 0 [] someStats [] in
  (result collaborators (NewMetrics tt []) w).2 ≠ None ∧
  run collaborators (CleanUp (result collaborators (NewMetrics tt []) w).1)
    world
  = (None, world, []).
Proof.
  intros w.
  assert ((result collaborators (NewMetrics tt []) w).2 ≠ None) as Herr
    by (vm_compute; discriminate).
  split; [exact Herr|].
  apply (CleanUp_after_a_failed_NewMetrics (Pkg := package)
           tt [] collaborators w collaborators world Herr).
Defined.

End FurtherOnTheRecordingMeter.
